(** * Unit-Converter-Hub: the conversion engine

    A shallow embedding of [src/models/unitCategories.js] (the unit registry)
    and [src/utils/conversionUtils.js] (the conversion engine), with the
    properties of the engine's specification stated and proved over it.

    - JavaScript numbers are IEEE 754 binary64 values: the kernel's primitive
      [float], whose [+], [-], [*], [/] round to nearest, ties to even, as the
      JavaScript operators do.
    - JavaScript strings are modelled as byte strings (the UTF-8 encoding of
      the source text); only equality and concatenation of strings are used.
    - A [throw] is an abrupt completion: the engine's functions return a
      [Completion], and [try_catch] is the [try { } catch (error) { }] block.
    - Property access [o[k]] follows the prototype chain: a key that is not an
      own property of an object literal is looked up in [Object.prototype]. *)

From Stdlib Require Import ZArith Bool List String Ascii Lia.
From Stdlib Require Import PrimFloat FloatOps SpecFloat Uint63.
Import ListNotations.

Set Warnings "-inexact-float".

Local Open Scope string_scope.

(** ** JavaScript values *)

(** The values the [value] argument of [convert] can hold. *)
Inductive JsValue : Type :=
| JsUndefined
| JsNull
| JsBoolean (b : bool)
| JsNumber (x : float)
| JsString (s : string)
| JsBigInt (n : Z)
| JsSymbol (description : string)
| JsObject (ref : nat)
| JsFunction (ref : nat).

(** [typeof v]. *)
Definition typeof (v : JsValue) : string :=
  match v with
  | JsUndefined => "undefined"
  | JsNull => "object"
  | JsBoolean _ => "boolean"
  | JsNumber _ => "number"
  | JsString _ => "string"
  | JsBigInt _ => "bigint"
  | JsSymbol _ => "symbol"
  | JsObject _ => "object"
  | JsFunction _ => "function"
  end.

(** The [fromUnit], [toUnit] and [category] arguments: a string, or absent
    ([undefined] when the argument or the JSON field is missing, [null] when
    the JSON field is null). *)
Inductive StrArg : Type :=
| ArgUndefined
| ArgNull
| ArgString (s : string).

(** A string literal stands for the string argument. *)
Coercion ArgString : string >-> StrArg.

(** [ToBoolean]: [!x] is [negb (truthy x)]; the empty string is falsy. *)
Definition truthy (a : StrArg) : bool :=
  match a with
  | ArgString s => negb (s =? "")
  | _ => false
  end.

(** [ToString], as a template literal or a property key applies it. *)
Definition ToString (a : StrArg) : string :=
  match a with
  | ArgUndefined => "undefined"
  | ArgNull => "null"
  | ArgString s => s
  end.

(** Strict equality [a === b]. *)
Definition strict_eq (a b : StrArg) : bool :=
  match a, b with
  | ArgUndefined, ArgUndefined => true
  | ArgNull, ArgNull => true
  | ArgString s, ArgString t => s =? t
  | _, _ => false
  end.

(** [a === 'literal']. *)
Definition is_string (a : StrArg) (lit : string) : bool :=
  strict_eq a (ArgString lit).

(** ** Abrupt completions *)

Inductive JsError : Type :=
| Error (message : string)
| TypeError (message : string).

Definition message (e : JsError) : string :=
  match e with
  | Error m => m
  | TypeError m => m
  end.

Inductive Completion (A : Type) : Type :=
| Normal (a : A)
| Throw (e : JsError).

Arguments Normal {A} a.
Arguments Throw {A} e.

Definition bind {A B : Type} (c : Completion A) (k : A -> Completion B)
  : Completion B :=
  match c with
  | Normal a => k a
  | Throw e => Throw e
  end.

Notation "'let*' x ':=' c 'in' k" := (bind c (fun x => k))
  (at level 10, x name, c at level 100, k at level 200).

(** [try { body } catch (error) { handler }]. *)
Definition try_catch {A : Type} (body : Completion A)
  (handler : JsError -> Completion A) : Completion A :=
  match body with
  | Normal a => Normal a
  | Throw e => handler e
  end.

(** ** Objects used as maps *)

(** The own properties of an object literal, in declaration order. *)
Definition Object_ (A : Type) : Type := list (string * A).

(** The property names of [Object.prototype] (ECMAScript, with Annex B), which
    every object literal inherits. None of the inherited values has a
    property [units], [factor] or [symbol]. *)
Definition Object_prototype : list string :=
  [ "constructor"; "hasOwnProperty"; "isPrototypeOf"; "propertyIsEnumerable";
    "toLocaleString"; "toString"; "valueOf"; "__proto__";
    "__defineGetter__"; "__defineSetter__";
    "__lookupGetter__"; "__lookupSetter__" ].

Fixpoint own_property {A : Type} (o : Object_ A) (key : string) : option A :=
  match o with
  | [] => None
  | (k, a) :: rest => if k =? key then Some a else own_property rest key
  end.

(** What [o[key]] evaluates to. *)
Inductive Slot (A : Type) : Type :=
| Own (a : A)        (* an entry of the object literal *)
| Inherited          (* a function or object found on [Object.prototype] *)
| Undefined.         (* [undefined] *)

Arguments Own {A} a.
Arguments Inherited {A}.
Arguments Undefined {A}.

Definition Get {A : Type} (o : Object_ A) (key : string) : Slot A :=
  match own_property o key with
  | Some a => Own a
  | None =>
      if existsb (String.eqb key) Object_prototype then Inherited
      else Undefined
  end.

(** [!slot] is [negb (defined slot)]: objects and functions are truthy. *)
Definition defined {A : Type} (s : Slot A) : bool :=
  match s with
  | Undefined => false
  | _ => true
  end.

(** ** Numbers *)

Local Open Scope float_scope.

(** [Number.EPSILON], 2^-52. *)
Definition Number_EPSILON : float := Eval cbv in Z.ldexp 1 (-52)%Z.

(** [Math.round(x)]: the integer nearest to [x], a tie going towards
    +infinity; NaN, the infinities and the zeros are returned unchanged, and
    a result of zero keeps the sign of [x]. A finite non-zero [x] is
    [(-1)^s * m * 2^e]; with [e >= 0] it is an integer already, otherwise the
    result is [floor (x + 1/2)], computed exactly on integers (it is below
    2^53 in magnitude, so the conversion back is exact). *)
Definition Math_round (x : float) : float :=
  match Prim2SF x with
  | S754_finite s m e =>
      if (0 <=? e)%Z then x
      else
        let d := (2 ^ (- e))%Z in
        let n := if s then Z.neg m else Z.pos m in
        let r := ((2 * n + d) / (2 * d))%Z in
        if (r =? 0)%Z then (if s then neg_zero else zero)
        else if (r <? 0)%Z then - of_uint63 (Uint63.of_Z (- r))
        else of_uint63 (Uint63.of_Z r)
  | _ => x
  end.

(** [Math.pow(10, decimals)] for a small non-negative integer [decimals]:
    10^decimals is a binary64 value up to 10^22, and the products are exact. *)
Fixpoint Math_pow10 (decimals : nat) : float :=
  match decimals with
  | O => 1
  | S d => Math_pow10 d * 10
  end.

(** [isNaN(x)] on a number. *)
Definition isNaN (x : float) : bool := is_nan x.

(** [roundToPrecision(num, decimals = 10)]. *)
Definition roundToPrecision (num : float) (decimals : nat) : float :=
  Math_round ((num + Number_EPSILON) * Math_pow10 decimals)
  / Math_pow10 decimals.

Definition default_decimals : nat := 10.

(** ** The unit registry ([src/models/unitCategories.js]) *)

Module Unit.
Record t : Type := make
  { name : string; symbol : string; factor : float; category : string }.
End Unit.

Module Category.
Record t : Type := make
  { name : string; icon : string; baseUnit : string;
    units : Object_ Unit.t }.
End Category.

Definition length_units : Object_ Unit.t :=
  [
    ("nanometer", Unit.make "Nanometer" "nm" 1e-9 "metric");
    ("micrometer", Unit.make "Micrometer" "μm" 1e-6 "metric");
    ("millimeter", Unit.make "Millimeter" "mm" 0.001 "metric");
    ("centimeter", Unit.make "Centimeter" "cm" 0.01 "metric");
    ("meter", Unit.make "Meter" "m" 1 "metric");
    ("kilometer", Unit.make "Kilometer" "km" 1000 "metric");
    ("inch", Unit.make "Inch" "in" 0.0254 "imperial");
    ("foot", Unit.make "Foot" "ft" 0.3048 "imperial");
    ("yard", Unit.make "Yard" "yd" 0.9144 "imperial");
    ("mile", Unit.make "Mile" "mi" 1609.344 "imperial");
    ("nauticalMile", Unit.make "Nautical Mile" "nmi" 1852 "nautical");
    ("lightYear", Unit.make "Light Year" "ly" 9.461e15 "astronomical")
  ]%float.

Definition weight_units : Object_ Unit.t :=
  [
    ("milligram", Unit.make "Milligram" "mg" 1e-6 "metric");
    ("gram", Unit.make "Gram" "g" 0.001 "metric");
    ("kilogram", Unit.make "Kilogram" "kg" 1 "metric");
    ("tonne", Unit.make "Tonne" "t" 1000 "metric");
    ("ounce", Unit.make "Ounce" "oz" 0.0283495 "imperial");
    ("pound", Unit.make "Pound" "lb" 0.453592 "imperial");
    ("stone", Unit.make "Stone" "st" 6.35029 "imperial");
    ("ton", Unit.make "Ton (US)" "ton" 907.185 "imperial")
  ]%float.

Definition volume_units : Object_ Unit.t :=
  [
    ("milliliter", Unit.make "Milliliter" "ml" 0.001 "metric");
    ("liter", Unit.make "Liter" "l" 1 "metric");
    ("cubicMeter", Unit.make "Cubic Meter" "m³" 1000 "metric");
    ("fluidOunce", Unit.make "Fluid Ounce (US)" "fl oz" 0.0295735 "imperial");
    ("cup", Unit.make "Cup (US)" "cup" 0.236588 "imperial");
    ("pint", Unit.make "Pint (US)" "pt" 0.473176 "imperial");
    ("quart", Unit.make "Quart (US)" "qt" 0.946353 "imperial");
    ("gallon", Unit.make "Gallon (US)" "gal" 3.78541 "imperial");
    ("fluidOunceUK",
     Unit.make "Fluid Ounce (UK)" "fl oz (UK)" 0.0284131 "uk-imperial");
    ("pintUK", Unit.make "Pint (UK)" "pt (UK)" 0.568261 "uk-imperial");
    ("gallonUK", Unit.make "Gallon (UK)" "gal (UK)" 4.54609 "uk-imperial")
  ]%float.

Definition temperature_units : Object_ Unit.t :=
  [
    ("celsius", Unit.make "Celsius" "°C" 1 "metric");
    ("fahrenheit", Unit.make "Fahrenheit" "°F" 1 "imperial");
    ("kelvin", Unit.make "Kelvin" "K" 1 "scientific");
    ("rankine", Unit.make "Rankine" "°R" 1 "scientific")
  ]%float.

Definition area_units : Object_ Unit.t :=
  [
    ("squareMillimeter", Unit.make "Square Millimeter" "mm²" 1e-6 "metric");
    ("squareCentimeter", Unit.make "Square Centimeter" "cm²" 1e-4 "metric");
    ("squareMeter", Unit.make "Square Meter" "m²" 1 "metric");
    ("hectare", Unit.make "Hectare" "ha" 10000 "metric");
    ("squareKilometer", Unit.make "Square Kilometer" "km²" 1e6 "metric");
    ("squareInch", Unit.make "Square Inch" "in²" 0.00064516 "imperial");
    ("squareFoot", Unit.make "Square Foot" "ft²" 0.092903 "imperial");
    ("squareYard", Unit.make "Square Yard" "yd²" 0.836127 "imperial");
    ("acre", Unit.make "Acre" "ac" 4046.86 "imperial");
    ("squareMile", Unit.make "Square Mile" "mi²" 2.59e6 "imperial")
  ]%float.

Definition time_units : Object_ Unit.t :=
  [
    ("nanosecond", Unit.make "Nanosecond" "ns" 1e-9 "scientific");
    ("microsecond", Unit.make "Microsecond" "μs" 1e-6 "scientific");
    ("millisecond", Unit.make "Millisecond" "ms" 0.001 "metric");
    ("second", Unit.make "Second" "s" 1 "metric");
    ("minute", Unit.make "Minute" "min" 60 "common");
    ("hour", Unit.make "Hour" "h" 3600 "common");
    ("day", Unit.make "Day" "d" 86400 "common");
    ("week", Unit.make "Week" "wk" 604800 "common");
    ("month", Unit.make "Month" "mo" 2629746 "common");
    ("year", Unit.make "Year" "yr" 31556952 "common")
  ]%float.

Definition speed_units : Object_ Unit.t :=
  [
    ("meterPerSecond", Unit.make "Meter per Second" "m/s" 1 "metric");
    ("kilometerPerHour",
     Unit.make "Kilometer per Hour" "km/h" 0.277778 "metric");
    ("milePerHour", Unit.make "Mile per Hour" "mph" 0.44704 "imperial");
    ("footPerSecond", Unit.make "Foot per Second" "ft/s" 0.3048 "imperial");
    ("knot", Unit.make "Knot" "kn" 0.514444 "nautical");
    ("mach", Unit.make "Mach" "Ma" 343 "scientific")
  ]%float.

Definition energy_units : Object_ Unit.t :=
  [
    ("joule", Unit.make "Joule" "J" 1 "metric");
    ("kilojoule", Unit.make "Kilojoule" "kJ" 1000 "metric");
    ("calorie", Unit.make "Calorie" "cal" 4.184 "metric");
    ("kilocalorie", Unit.make "Kilocalorie" "kcal" 4184 "metric");
    ("wattHour", Unit.make "Watt Hour" "Wh" 3600 "electrical");
    ("kilowattHour", Unit.make "Kilowatt Hour" "kWh" 3.6e6 "electrical");
    ("btu", Unit.make "British Thermal Unit" "BTU" 1055.06 "imperial")
  ]%float.

(** [UNIT_CATEGORIES]. *)
Definition UNIT_CATEGORIES : Object_ Category.t :=
  [
    ("length", Category.make "Length" "📏" "meter" length_units);
    ("weight", Category.make "Weight" "⚖️" "kilogram" weight_units);
    ("volume", Category.make "Volume" "🥤" "liter" volume_units);
    ("temperature",
     Category.make "Temperature" "🌡️" "celsius" temperature_units);
    ("area", Category.make "Area" "📐" "squareMeter" area_units);
    ("time", Category.make "Time" "⏰" "second" time_units);
    ("speed", Category.make "Speed" "🏃" "meterPerSecond" speed_units);
    ("energy", Category.make "Energy" "⚡" "joule" energy_units)
  ].

(** ** Property access on the result of a lookup *)

(** The message of the TypeError that reading a property of [undefined]
    raises (the wording is the engine's, V8; only that it is raised matters
    below). *)
Definition cannot_read (key : string) : string :=
  "Cannot read properties of undefined (reading '" ++ key ++ "')".

(** [slot.name]: the field of a registry entry; [undefined] ([None]) on a
    value inherited from [Object.prototype]; a TypeError on [undefined]. *)
Definition field {A B : Type} (slot : Slot A) (name : string) (proj : A -> B)
  : Completion (option B) :=
  match slot with
  | Own a => Normal (Some (proj a))
  | Inherited => Normal None
  | Undefined => Throw (TypeError (cannot_read name))
  end.

(** [o[key]] where [o] is the result of a property read. *)
Definition index {A : Type} (o : option (Object_ A)) (key : string)
  : Completion (Slot A) :=
  match o with
  | Some obj => Normal (Get obj key)
  | None => Throw (TypeError (cannot_read key))
  end.

(** [ToNumber] of a property that holds a number or is [undefined]. *)
Definition ToNumber (x : option float) : float :=
  match x with
  | Some f => f
  | None => nan
  end.

(** A property that holds a string or is [undefined], in a template
    literal. *)
Definition show (x : option string) : string :=
  match x with
  | Some s => s
  | None => "undefined"
  end.

(** ** The result of a conversion *)

Inductive ConversionResult : Type :=
| Success (originalValue : JsValue) (convertedValue : float)
    (fromUnit toUnit category : StrArg) (formula timestamp : string)
| Failure (error : string) (originalValue : JsValue)
    (fromUnit toUnit category : StrArg) (timestamp : string).

Definition success (r : ConversionResult) : bool :=
  match r with
  | Success _ _ _ _ _ _ _ => true
  | Failure _ _ _ _ _ _ => false
  end.

Definition convertedValue (r : ConversionResult) : option float :=
  match r with
  | Success _ v _ _ _ _ _ => Some v
  | Failure _ _ _ _ _ _ => None
  end.

Definition error (r : ConversionResult) : option string :=
  match r with
  | Success _ _ _ _ _ _ _ => None
  | Failure e _ _ _ _ _ => Some e
  end.

Definition formula (r : ConversionResult) : option string :=
  match r with
  | Success _ _ _ _ _ f _ => Some f
  | Failure _ _ _ _ _ _ => None
  end.

(** ** The conversion engine ([src/utils/conversionUtils.js]) *)

(** [convertTemperature(value, fromUnit, toUnit)]. *)
Definition convertTemperature (value : float) (fromUnit toUnit : StrArg)
  : Completion float :=
  if strict_eq fromUnit toUnit then Normal value
  else
    (* Convert to Celsius first *)
    let* celsius :=
      if is_string fromUnit "celsius" then Normal value
      else if is_string fromUnit "fahrenheit" then
        Normal ((value - 32) * 5 / 9)
      else if is_string fromUnit "kelvin" then Normal (value - 273.15)
      else if is_string fromUnit "rankine" then
        Normal ((value - 491.67) * 5 / 9)
      else Throw (Error ("Unknown temperature unit: " ++ ToString fromUnit))
    in
    (* Convert from Celsius to target unit *)
    let* result :=
      if is_string toUnit "celsius" then Normal celsius
      else if is_string toUnit "fahrenheit" then Normal (celsius * 9 / 5 + 32)
      else if is_string toUnit "kelvin" then Normal (celsius + 273.15)
      else if is_string toUnit "rankine" then
        Normal (celsius * 9 / 5 + 491.67)
      else Throw (Error ("Unknown temperature unit: " ++ ToString toUnit))
    in
    Normal (roundToPrecision result default_decimals).

(** [convertWithFactors(value, fromUnit, toUnit, category)]. *)
Definition convertWithFactors (value : float)
  (fromUnit toUnit category : StrArg) : Completion float :=
  if strict_eq fromUnit toUnit then Normal value
  else
    let categoryData := Get UNIT_CATEGORIES (ToString category) in
    if negb (defined categoryData) then
      Throw (Error ("Unknown category: " ++ ToString category))
    else
      let* units := field categoryData "units" Category.units in
      let* fromUnitData := index units (ToString fromUnit) in
      let* toUnitData := index units (ToString toUnit) in
      if negb (defined fromUnitData) then
        Throw (Error ("Unknown unit '" ++ ToString fromUnit
                        ++ "' in category '" ++ ToString category ++ "'"))
      else if negb (defined toUnitData) then
        Throw (Error ("Unknown unit '" ++ ToString toUnit
                        ++ "' in category '" ++ ToString category ++ "'"))
      else
        (* Convert to base unit, then to target unit *)
        let* fromFactor := field fromUnitData "factor" Unit.factor in
        let baseValue := value * ToNumber fromFactor in
        let* toFactor := field toUnitData "factor" Unit.factor in
        let result := baseValue / ToNumber toFactor in
        Normal (roundToPrecision result default_decimals).

(** The table of [getTemperatureFormula]. *)
Definition formulas : Object_ string :=
  [ ("celsius-fahrenheit", "°C × 9/5 + 32 = °F");
    ("fahrenheit-celsius", "(°F - 32) × 5/9 = °C");
    ("celsius-kelvin", "°C + 273.15 = K");
    ("kelvin-celsius", "K - 273.15 = °C");
    ("fahrenheit-kelvin", "(°F - 32) × 5/9 + 273.15 = K");
    ("kelvin-fahrenheit", "(K - 273.15) × 9/5 + 32 = °F");
    ("celsius-rankine", "°C × 9/5 + 491.67 = °R");
    ("rankine-celsius", "(°R - 491.67) × 5/9 = °C");
    ("fahrenheit-rankine", "°F + 459.67 = °R");
    ("rankine-fahrenheit", "°R - 459.67 = °F");
    ("kelvin-rankine", "K × 9/5 = °R");
    ("rankine-kelvin", "°R × 5/9 = K") ].

(** [getTemperatureFormula(fromUnit, toUnit)]: [formulas[key] || '']. The key
    holds a ['-'], which no property name of [Object.prototype] does
    ([temperature_key_not_inherited]), so only the table's own entries and
    [undefined] are ever read. *)
Definition getTemperatureFormula (fromUnit toUnit : StrArg) : string :=
  match Get formulas (ToString fromUnit ++ "-" ++ ToString toUnit) with
  | Own f => f
  | _ => ""
  end.

(** ** The specification's vocabulary *)

(** The rounding rule of the specification:
    [round((x + eps) * 10^10) / 10^10]. *)
Definition round10 (x : float) : float :=
  Math_round ((x + Number_EPSILON) * 1e10) / 1e10.

(** The four temperature units and their keys. *)
Inductive TemperatureUnit : Type := celsius | fahrenheit | kelvin | rankine.

Definition key (u : TemperatureUnit) : string :=
  match u with
  | celsius => "celsius"
  | fahrenheit => "fahrenheit"
  | kelvin => "kelvin"
  | rankine => "rankine"
  end.

(** The affine map from a unit to Celsius, in the specification's words. *)
Definition to_celsius (u : TemperatureUnit) (v : float) : float :=
  match u with
  | celsius => v
  | fahrenheit => (v - 32) * 5 / 9
  | kelvin => v - 273.15
  | rankine => (v - 491.67) * 5 / 9
  end.

(** The affine map from Celsius to a unit, in the specification's words. *)
Definition from_celsius (u : TemperatureUnit) (c : float) : float :=
  match u with
  | celsius => c
  | fahrenheit => c * 9 / 5 + 32
  | kelvin => c + 273.15
  | rankine => c * 9 / 5 + 491.67
  end.

(** The fixed formula strings of the twelve ordered pairs of distinct
    temperature units; a same-unit pair has none. *)
Definition temperature_table (f t : TemperatureUnit) : string :=
  match f, t with
  | celsius, fahrenheit => "°C × 9/5 + 32 = °F"
  | fahrenheit, celsius => "(°F - 32) × 5/9 = °C"
  | celsius, kelvin => "°C + 273.15 = K"
  | kelvin, celsius => "K - 273.15 = °C"
  | fahrenheit, kelvin => "(°F - 32) × 5/9 + 273.15 = K"
  | kelvin, fahrenheit => "(K - 273.15) × 9/5 + 32 = °F"
  | celsius, rankine => "°C × 9/5 + 491.67 = °R"
  | rankine, celsius => "(°R - 491.67) × 5/9 = °C"
  | fahrenheit, rankine => "°F + 459.67 = °R"
  | rankine, fahrenheit => "°R - 459.67 = °F"
  | kelvin, rankine => "K × 9/5 = °R"
  | rankine, kelvin => "°R × 5/9 = K"
  | _, _ => ""
  end.

(** The test that every key of the registry, category or unit, is a
    non-empty string. *)
Definition keys_nonempty : bool :=
  forallb
    (fun '(c, cat) =>
       negb (c =? "")%string
       && forallb (fun '(u, _) => negb (u =? "")%string) (Category.units cat))
    UNIT_CATEGORIES.

(** The guard [typeof value !== 'number' || isNaN(value)] of [convert]. *)
Definition not_a_valid_number (value : JsValue) : bool :=
  negb (typeof value =? "number")%string
  || match value with
     | JsNumber x => isNaN x
     | _ => true
     end.

(** The two messages of the validation of [convert]. *)
Definition invalid_value_message : string := "Value must be a valid number".

Definition missing_field_message : string :=
  "From unit, to unit, and category are required".

(** Whether a string holds a ['-']. *)
Fixpoint has_dash (s : string) : bool :=
  match s with
  | EmptyString => false
  | String a rest => (a =? "-")%char || has_dash rest
  end.

(** [haystack.includes(needle)]. *)
Fixpoint includes (haystack needle : string) : bool :=
  prefix needle haystack
  || match haystack with
     | EmptyString => false
     | String _ rest => includes rest needle
     end.

(** A host for the closed examples: a clock reading, and a rendering of
    numbers that no statement below depends on. *)
Definition example_now : string := "2025-07-11T17:06:35.651Z".

Definition example_NumberToString (x : float) : string :=
  if is_nan x then "NaN" else "#".

Section Engine.

(** [Number::toString], which the template literal of the linear formula
    applies to its numbers. *)
Variable NumberToString : float -> string.

(** [new Date().toISOString()] at the time of the call. *)
Variable now : string.

(** [getConversionFormula(value, fromUnit, toUnit, category)]. *)
Definition getConversionFormula (value : float)
  (fromUnit toUnit category : StrArg) : Completion string :=
  let categoryData := Get UNIT_CATEGORIES (ToString category) in
  if negb (defined categoryData) then Normal ""
  else
    let* units := field categoryData "units" Category.units in
    let* fromUnitData := index units (ToString fromUnit) in
    let* toUnitData := index units (ToString toUnit) in
    if negb (defined fromUnitData) || negb (defined toUnitData) then
      Normal ""
    else if is_string category "temperature" then
      Normal (getTemperatureFormula fromUnit toUnit)
    else
      let* fromFactor := field fromUnitData "factor" Unit.factor in
      let* toFactor := field toUnitData "factor" Unit.factor in
      let factor := ToNumber fromFactor / ToNumber toFactor in
      let* fromSymbol := field fromUnitData "symbol" Unit.symbol in
      let* toSymbol := field toUnitData "symbol" Unit.symbol in
      Normal (NumberToString value ++ " " ++ show fromSymbol ++ " = "
                ++ NumberToString value ++ " × " ++ NumberToString factor
                ++ " = "
                ++ NumberToString
                     (roundToPrecision (value * factor) default_decimals)
                ++ " " ++ show toSymbol).

(** [convert(value, fromUnit, toUnit, category)]. *)
Definition convert (value : JsValue) (fromUnit toUnit category : StrArg)
  : Completion ConversionResult :=
  try_catch
    (* Validate input *)
    (match value with
     | JsNumber x =>
         if isNaN x then Throw (Error "Value must be a valid number")
         else if negb (truthy fromUnit) || negb (truthy toUnit)
                 || negb (truthy category) then
           Throw (Error "From unit, to unit, and category are required")
         (* Check if category exists *)
         else if negb (defined (Get UNIT_CATEGORIES (ToString category)))
         then Throw (Error ("Unknown category: " ++ ToString category))
         else
           (* Special handling for temperature *)
           let* result :=
             if is_string category "temperature" then
               convertTemperature x fromUnit toUnit
             else convertWithFactors x fromUnit toUnit category
           in
           let* formula := getConversionFormula x fromUnit toUnit category in
           Normal (Success value result fromUnit toUnit category formula now)
     | _ => Throw (Error "Value must be a valid number")
     end)
    (fun error =>
       Normal (Failure (message error) value fromUnit toUnit category now)).

(** * Properties *)

(** ** Lookups *)

Lemma own_property_In {A : Type} (o : Object_ A) (k : string) (a : A) :
  own_property o k = Some a -> In (k, a) o.
Proof.
  induction o as [|[k' a'] rest IH]; simpl; [discriminate|].
  destruct (k' =? k)%string eqn:E.
  - intros [= ->]. apply String.eqb_eq in E. subst. now left.
  - intros H. right. now apply IH.
Qed.

Lemma Get_own {A : Type} (o : Object_ A) (k : string) (a : A) :
  own_property o k = Some a -> Get o k = Own a.
Proof. unfold Get. now intros ->. Qed.

Lemma category_key_nonempty (c : string) (cat : Category.t) :
  own_property UNIT_CATEGORIES c = Some cat -> truthy (ArgString c) = true.
Proof.
  intros H%own_property_In.
  assert (K : keys_nonempty = true) by (vm_compute; reflexivity).
  unfold keys_nonempty in K. rewrite forallb_forall in K.
  apply K in H. now apply andb_prop in H as [H _].
Qed.

Lemma unit_key_nonempty (c u : string) (cat : Category.t) (x : Unit.t) :
  own_property UNIT_CATEGORIES c = Some cat ->
  own_property (Category.units cat) u = Some x ->
  truthy (ArgString u) = true.
Proof.
  intros H%own_property_In Hu%own_property_In.
  assert (K : keys_nonempty = true) by (vm_compute; reflexivity).
  unfold keys_nonempty in K. rewrite forallb_forall in K.
  apply K in H. apply andb_prop in H as [_ H].
  rewrite forallb_forall in H. now apply H in Hu.
Qed.

Lemma finite_not_nan (v : float) : is_finite v = true -> isNaN v = false.
Proof.
  unfold is_finite, isNaN. destruct (is_nan v); [discriminate | reflexivity].
Qed.

Lemma roundToPrecision_round10 (x : float) :
  roundToPrecision x default_decimals = round10 x.
Proof. reflexivity. Qed.

(** ** Linear-factor conversions *)

(** The helper on two resolved, distinct units of a resolved category. *)
Lemma convertWithFactors_resolved (c f t : string) (cat : Category.t)
  (uf ut : Unit.t) (v : float) :
  own_property UNIT_CATEGORIES c = Some cat ->
  own_property (Category.units cat) f = Some uf ->
  own_property (Category.units cat) t = Some ut ->
  f <> t ->
  convertWithFactors v (ArgString f) (ArgString t) (ArgString c)
  = Normal (round10 (v * Unit.factor uf / Unit.factor ut)).
Proof.
  intros Hc Hf Ht Hne. unfold convertWithFactors. simpl.
  apply String.eqb_neq in Hne. rewrite Hne.
  rewrite (Get_own _ _ _ Hc). simpl.
  rewrite (Get_own _ _ _ Hf), (Get_own _ _ _ Ht). simpl.
  reflexivity.
Qed.

(** The formula never fails on a category of the registry. *)
Lemma getConversionFormula_registry (c : string) (cat : Category.t)
  (v : float) (f t : StrArg) :
  own_property UNIT_CATEGORIES c = Some cat ->
  exists s, getConversionFormula v f t (ArgString c) = Normal s.
Proof.
  intros Hc. unfold getConversionFormula.
  destruct (is_string (ArgString c) "temperature").
  all: cbn [ToString]; rewrite (Get_own _ _ _ Hc); cbn.
  all: destruct (Get (Category.units cat) (ToString f)) as [uf| |];
    destruct (Get (Category.units cat) (ToString t)) as [ut| |]; cbn;
    eexists; reflexivity.
Qed.

(** C1. For every category of the registry other than temperature, every two
    distinct unit keys [f] and [t] of that category and every finite [v],
    [convert(v, f, t, c)] is a success result whose convertedValue is
    [round10 (v * factor f / factor t)], where
    [round10 x = round((x + eps) * 10^10) / 10^10]. *)
Theorem convert_linear_factor (c f t : string) (cat : Category.t)
  (uf ut : Unit.t) (v : float) :
  own_property UNIT_CATEGORIES c = Some cat ->
  c <> "temperature" ->
  own_property (Category.units cat) f = Some uf ->
  own_property (Category.units cat) t = Some ut ->
  f <> t ->
  is_finite v = true ->
  exists formula,
    convert (JsNumber v) (ArgString f) (ArgString t) (ArgString c)
    = Normal (Success (JsNumber v)
                (round10 (v * Unit.factor uf / Unit.factor ut))
                (ArgString f) (ArgString t) (ArgString c) formula now).
Proof.
  intros Hc Htemp Hf Ht Hne Hv.
  destruct (getConversionFormula_registry c cat v (ArgString f) (ArgString t)
              Hc) as [s Hs].
  exists s. unfold convert.
  rewrite (finite_not_nan v Hv).
  rewrite (unit_key_nonempty c f cat uf Hc Hf),
    (unit_key_nonempty c t cat ut Hc Ht), (category_key_nonempty c cat Hc).
  cbn [negb orb ToString].
  rewrite (Get_own _ _ _ Hc). cbn [defined negb].
  apply String.eqb_neq in Htemp. unfold is_string, strict_eq. rewrite Htemp.
  rewrite (convertWithFactors_resolved c f t cat uf ut v Hc Hf Ht Hne).
  cbn [bind]. rewrite Hs. reflexivity.
Qed.

(** ** Same-unit conversions *)

Lemma strict_eq_refl (a : StrArg) : strict_eq a a = true.
Proof. destruct a; simpl; auto using String.eqb_refl. Qed.

Lemma convertTemperature_same (v : float) (u : StrArg) :
  convertTemperature v u u = Normal v.
Proof. unfold convertTemperature. now rewrite strict_eq_refl. Qed.

Lemma convertWithFactors_same (v : float) (u c : StrArg) :
  convertWithFactors v u u c = Normal v.
Proof. unfold convertWithFactors. now rewrite strict_eq_refl. Qed.

(** With a category of the registry and one non-empty string for both units,
    [convert] returns the value as it is, whether or not the string is a unit
    of the category: the units are compared before they are looked up. *)
Lemma convert_same_unit (c u : string) (cat : Category.t) (v : float) :
  own_property UNIT_CATEGORIES c = Some cat ->
  truthy (ArgString u) = true ->
  isNaN v = false ->
  exists formula,
    convert (JsNumber v) (ArgString u) (ArgString u) (ArgString c)
    = Normal (Success (JsNumber v) v (ArgString u) (ArgString u) (ArgString c)
                formula now).
Proof.
  intros Hc Hu Hv.
  destruct (getConversionFormula_registry c cat v (ArgString u) (ArgString u)
              Hc) as [s Hs].
  exists s. unfold convert.
  rewrite Hv, Hu, (category_key_nonempty c cat Hc).
  cbn [negb orb ToString].
  rewrite (Get_own _ _ _ Hc). cbn [defined negb].
  rewrite convertTemperature_same, convertWithFactors_same.
  destruct (is_string (ArgString c) "temperature"); cbn [bind];
    rewrite Hs; reflexivity.
Qed.

(** C3. For every category of the registry, every unit key [u] of it and
    every finite [v], [convert(v, u, u, c)] is a success result whose
    convertedValue is [v] itself, and neither algorithm rounds on the
    same-unit path. *)
Theorem convert_identity (c u : string) (cat : Category.t) (x : Unit.t)
  (v : float) :
  own_property UNIT_CATEGORIES c = Some cat ->
  own_property (Category.units cat) u = Some x ->
  is_finite v = true ->
  (exists formula,
     convert (JsNumber v) (ArgString u) (ArgString u) (ArgString c)
     = Normal (Success (JsNumber v) v (ArgString u) (ArgString u)
                 (ArgString c) formula now))
  /\ convertWithFactors v (ArgString u) (ArgString u) (ArgString c) = Normal v
  /\ convertTemperature v (ArgString u) (ArgString u) = Normal v.
Proof.
  intros Hc Hu Hv. split; [|split].
  - apply (convert_same_unit c u cat v Hc).
    + exact (unit_key_nonempty c u cat x Hc Hu).
    + exact (finite_not_nan v Hv).
  - apply convertWithFactors_same.
  - apply convertTemperature_same.
Qed.

(** ** Temperature conversions *)

Lemma convertTemperature_affine (f t : TemperatureUnit) (v : float) :
  f <> t ->
  convertTemperature v (ArgString (key f)) (ArgString (key t))
  = Normal (round10 (from_celsius t (to_celsius f v))).
Proof.
  intros Hne. destruct f, t; try (exfalso; apply Hne; reflexivity);
    reflexivity.
Qed.

(** C2. For every two distinct temperature units [f] and [t] and every finite
    [v], [convert(v, f, t, temperature)] is a success result whose
    convertedValue is the from-unit-to-Celsius map followed by the
    Celsius-to-target map, rounded to 10 decimals; and 0 C is 32 F, 100 C is
    212 F, -40 C is -40 F and 0 C is 273.15 K. *)
Theorem convert_temperature :
  (forall (f t : TemperatureUnit) (v : float),
     f <> t ->
     is_finite v = true ->
     convert (JsNumber v) (key f) (key t) "temperature"
     = Normal (Success (JsNumber v)
                 (round10 (from_celsius t (to_celsius f v)))
                 (key f) (key t) "temperature" (temperature_table f t) now))
  /\ convert (JsNumber 0) "celsius" "fahrenheit" "temperature"
     = Normal (Success (JsNumber 0) 32 "celsius" "fahrenheit" "temperature"
                 "°C × 9/5 + 32 = °F" now)
  /\ convert (JsNumber 100) "celsius" "fahrenheit" "temperature"
     = Normal (Success (JsNumber 100) 212 "celsius" "fahrenheit"
                 "temperature" "°C × 9/5 + 32 = °F" now)
  /\ convert (JsNumber (-40)) "celsius" "fahrenheit" "temperature"
     = Normal (Success (JsNumber (-40)) (-40) "celsius" "fahrenheit"
                 "temperature" "°C × 9/5 + 32 = °F" now)
  /\ convert (JsNumber 0) "celsius" "kelvin" "temperature"
     = Normal (Success (JsNumber 0) 273.15 "celsius" "kelvin" "temperature"
                 "°C + 273.15 = K" now).
Proof.
  split; [|repeat split; vm_compute; reflexivity].
  intros f t v Hne Hv. unfold convert.
  rewrite (finite_not_nan v Hv).
  rewrite (convertTemperature_affine f t v Hne).
  destruct f, t; reflexivity.
Qed.

(** ** [convert] never throws *)

(** C5. Whatever the value and whatever the strings, or their absence, for
    the units and the category, [convert] completes normally, with a success
    record or with a failure record, and either echoes the four inputs and
    carries the timestamp. *)
Theorem convert_never_throws (value : JsValue)
  (fromUnit toUnit category : StrArg) :
  (exists (result : float) (formula : string),
     convert value fromUnit toUnit category
     = Normal (Success value result fromUnit toUnit category formula now))
  \/ (exists message : string,
        convert value fromUnit toUnit category
        = Normal (Failure message value fromUnit toUnit category now)).
Proof.
  unfold convert.
  destruct value as [| | |x| | | | |];
    try (right; eexists; reflexivity).
  destruct (isNaN x); [right; eexists; reflexivity|].
  destruct (negb (truthy fromUnit) || negb (truthy toUnit)
            || negb (truthy category));
    [right; eexists; reflexivity|].
  destruct (negb (defined (Get UNIT_CATEGORIES (ToString category))));
    [right; eexists; reflexivity|].
  destruct (if is_string category "temperature"
            then convertTemperature x fromUnit toUnit
            else convertWithFactors x fromUnit toUnit category) as [r|e];
    cbn [bind]; [|right; eexists; reflexivity].
  destruct (getConversionFormula x fromUnit toUnit category) as [s|e];
    cbn [bind try_catch]; [left|right]; eauto.
Qed.

(** ** Validation *)

(** C6, amended. A value that is not of type number, or is NaN, makes
    [convert] return the failure result whose message is
    "Value must be a valid number", whatever the units and the category. *)
Theorem convert_invalid_value (value : JsValue)
  (fromUnit toUnit category : StrArg) :
  not_a_valid_number value = true ->
  convert value fromUnit toUnit category
  = Normal (Failure invalid_value_message value fromUnit toUnit category now)
  /\ includes invalid_value_message "valid number" = true.
Proof.
  intros H. split; [|reflexivity].
  unfold convert. destruct value; try reflexivity.
  cbn in H. now rewrite H.
Qed.

(** C7, amended. With a number that is not NaN for the value, a missing or
    empty fromUnit, toUnit or category makes [convert] return the failure
    result whose message is the one text
    "From unit, to unit, and category are required", whichever of the three
    is missing. *)
Theorem convert_missing_field (x : float) (fromUnit toUnit category : StrArg) :
  is_finite x = true ->
  truthy fromUnit = false \/ truthy toUnit = false \/ truthy category = false ->
  convert (JsNumber x) fromUnit toUnit category
  = Normal (Failure missing_field_message (JsNumber x) fromUnit toUnit
              category now).
Proof.
  intros Hx H. unfold convert. rewrite (finite_not_nan x Hx).
  assert (E : negb (truthy fromUnit) || negb (truthy toUnit)
              || negb (truthy category) = true).
  { destruct H as [->|[->| ->]]; cbn [negb orb];
      rewrite ?orb_true_r; reflexivity. }
  rewrite E. reflexivity.
Qed.

(** ** Categories that are not in the registry *)

Lemma Get_not_own {A : Type} (o : Object_ A) (k : string) :
  own_property o k = None -> Get o k = Inherited \/ Get o k = Undefined.
Proof.
  unfold Get. intros ->.
  destruct (existsb (String.eqb k) Object_prototype); auto.
Qed.

(** A category found on [Object.prototype] has no [units]: reading a unit
    of it raises a TypeError. *)
Lemma getConversionFormula_inherited (v : float) (f t c : StrArg) :
  Get UNIT_CATEGORIES (ToString c) = Inherited ->
  getConversionFormula v f t c = Throw (TypeError (cannot_read (ToString f))).
Proof. unfold getConversionFormula. now intros ->. Qed.

Lemma getConversionFormula_undefined (v : float) (f t c : StrArg) :
  Get UNIT_CATEGORIES (ToString c) = Undefined ->
  getConversionFormula v f t c = Normal "".
Proof. unfold getConversionFormula. now intros ->. Qed.

Lemma convertWithFactors_not_own (v : float) (f t c : StrArg) :
  own_property UNIT_CATEGORIES (ToString c) = None ->
  strict_eq f t = false ->
  exists e, convertWithFactors v f t c = Throw e.
Proof.
  intros H Hne. unfold convertWithFactors. rewrite Hne.
  destruct (Get_not_own _ _ H) as [-> | ->]; eexists; reflexivity.
Qed.

Lemma not_own_not_temperature (c : StrArg) :
  own_property UNIT_CATEGORIES (ToString c) = None ->
  is_string c "temperature" = false.
Proof.
  destruct c as [| |s]; try reflexivity.
  cbn [ToString is_string strict_eq]. intros H.
  destruct (s =? "temperature")%string eqn:E; [|reflexivity].
  apply String.eqb_eq in E. subst s. discriminate H.
Qed.

(** With a category that is not a key of the registry, [convert] returns a
    failure result, whatever the value and the units. *)
Lemma convert_unknown_category (value : JsValue) (f t c : StrArg) :
  own_property UNIT_CATEGORIES (ToString c) = None ->
  exists message,
    convert value f t c = Normal (Failure message value f t c now).
Proof.
  intros H. unfold convert.
  destruct value as [| | |x| | | | |]; try (eexists; reflexivity).
  destruct (isNaN x); [eexists; reflexivity|].
  destruct (negb (truthy f) || negb (truthy t) || negb (truthy c));
    [eexists; reflexivity|].
  rewrite (not_own_not_temperature c H).
  destruct (Get_not_own _ _ H) as [G|G].
  - rewrite G. cbn [defined negb].
    rewrite (getConversionFormula_inherited x f t c G).
    destruct (strict_eq f t) eqn:E.
    + unfold convertWithFactors. rewrite E. eexists. reflexivity.
    + destruct (convertWithFactors_not_own x f t c H E) as [e ->].
      eexists. reflexivity.
  - rewrite G. eexists. reflexivity.
Qed.

(** C10, amended. The same-unit test comes before the units are resolved and
    after the category is: with a category of the registry, a finite [v] and
    any non-empty string [u], a unit of the category or not,
    [convert(v, u, u, c)] is a success result whose convertedValue is [v];
    with a category that is not in the registry, [convert(v, u, u, c)] is a
    failure result. *)
Theorem convert_same_unit_short_circuit :
  (forall (c u : string) (cat : Category.t) (v : float),
     own_property UNIT_CATEGORIES c = Some cat ->
     u <> "" ->
     is_finite v = true ->
     exists formula,
       convert (JsNumber v) (ArgString u) (ArgString u) (ArgString c)
       = Normal (Success (JsNumber v) v (ArgString u) (ArgString u)
                   (ArgString c) formula now))
  /\ (forall (c u : StrArg) (value : JsValue),
        own_property UNIT_CATEGORIES (ToString c) = None ->
        exists message,
          convert value u u c = Normal (Failure message value u u c now)).
Proof.
  split.
  - intros c u cat v Hc Hu Hv.
    apply (convert_same_unit c u cat v Hc).
    + cbn [truthy]. apply String.eqb_neq in Hu. now rewrite Hu.
    + exact (finite_not_nan v Hv).
  - intros c u value Hc. exact (convert_unknown_category value u u c Hc).
Qed.

(** ** Formula rendering *)

Lemma has_dash_app (s t : string) : has_dash (s ++ String "-" t) = true.
Proof.
  induction s as [|a s IH]; [reflexivity|].
  cbn [append has_dash]. rewrite IH. apply orb_true_r.
Qed.

(** The key that [getTemperatureFormula] reads is no property name of
    [Object.prototype]. *)
Lemma temperature_key_not_inherited (f t : StrArg) :
  existsb (String.eqb (ToString f ++ "-" ++ ToString t)) Object_prototype
  = false.
Proof.
  assert (D : forall p, In p Object_prototype -> has_dash p = false).
  { intros p Hp. cbn in Hp.
    repeat (destruct Hp as [<-|Hp]; [reflexivity|]). destruct Hp. }
  destruct (existsb _ Object_prototype) eqn:E; [|reflexivity].
  apply existsb_exists in E as (p & Hp & Heq).
  apply String.eqb_eq in Heq. subst p.
  apply D in Hp.
  change (has_dash (ToString f ++ String "-" (ToString t)) = false) in Hp.
  now rewrite has_dash_app in Hp.
Qed.

(** On the temperature category, the formula of each of the twelve ordered
    pairs of distinct units is the table's string, and a same-unit pair has
    the empty string. *)
Lemma getConversionFormula_temperature (v : float) (f t : TemperatureUnit) :
  getConversionFormula v (ArgString (key f)) (ArgString (key t))
    "temperature"
  = Normal (temperature_table f t).
Proof. destruct f, t; reflexivity. Qed.

(** A unit that is neither in the category nor on [Object.prototype] gives
    the empty string. *)
Lemma getConversionFormula_unknown_unit (c : string) (cat : Category.t)
  (v : float) (f t : StrArg) :
  own_property UNIT_CATEGORIES c = Some cat ->
  Get (Category.units cat) (ToString f) = Undefined
  \/ Get (Category.units cat) (ToString t) = Undefined ->
  getConversionFormula v f t (ArgString c) = Normal "".
Proof.
  intros Hc H. unfold getConversionFormula. cbn [ToString].
  rewrite (Get_own _ _ _ Hc). cbn [defined negb field bind index].
  destruct H as [-> | ->]; cbn [defined negb orb]; [reflexivity|].
  now rewrite orb_true_r.
Qed.

(** C8, the failing input. For the category "constructor", which is not in
    the registry but is a property of every object, [getConversionFormula]
    does not return the empty string: reading a unit of the undefined
    [units] raises a TypeError. *)
Theorem getConversionFormula_throws :
  getConversionFormula 1 "meter" "foot"
    "constructor"
  = Throw (TypeError "Cannot read properties of undefined (reading 'meter')").
Proof. reflexivity. Qed.

(** ** The registry *)

(** C9. Every category of the registry has its base unit among its own
    units, with factor 1, and every temperature unit has factor 1. *)
Theorem registry_base_units :
  (forall (c : string) (cat : Category.t),
     In (c, cat) UNIT_CATEGORIES ->
     exists base,
       own_property (Category.units cat) (Category.baseUnit cat) = Some base
       /\ Unit.factor base = 1)
  /\ (forall (u : string) (x : Unit.t),
        In (u, x) temperature_units -> Unit.factor x = 1).
Proof.
  split.
  - intros c cat H. cbn in H.
    repeat (destruct H as [[= <- <-]|H];
            [eexists; split; reflexivity|]).
    destruct H.
  - intros u x H. cbn in H.
    repeat (destruct H as [[= <- <-]|H]; [reflexivity|]).
    destruct H.
Qed.

(** ** Round trips *)



End Engine.

(** * Closed instances

    The theorems above at concrete inputs, on the example host. *)

(** C1 at [convert(1, 'meter', 'centimeter', 'length')]: 100. *)
Lemma convert_linear_factor_witness :
  exists formula,
    convert example_NumberToString example_now
      (JsNumber 1) "meter" "centimeter" "length"
    = Normal (Success (JsNumber 1) 100 "meter" "centimeter" "length"
                formula example_now).
Proof.
  apply (convert_linear_factor example_NumberToString example_now
           "length" "meter" "centimeter"
           (Category.make "Length" "📏" "meter" length_units)
           (Unit.make "Meter" "m" 1 "metric")
           (Unit.make "Centimeter" "cm" 0.01 "metric") 1).
  - reflexivity.
  - discriminate.
  - reflexivity.
  - reflexivity.
  - discriminate.
  - reflexivity.
Defined.

(** C2 at [convert(98.6, 'fahrenheit', 'celsius', 'temperature')]: 37. *)
Lemma convert_temperature_witness :
  convert example_NumberToString example_now
    (JsNumber 98.6) "fahrenheit" "celsius" "temperature"
  = Normal (Success (JsNumber 98.6) 37 "fahrenheit" "celsius" "temperature"
              "(°F - 32) × 5/9 = °C" example_now).
Proof.
  apply (proj1 (convert_temperature example_NumberToString example_now)
           fahrenheit celsius 98.6).
  - discriminate.
  - reflexivity.
Defined.

(** C3 at [convert(5, 'meter', 'meter', 'length')]: 5. *)
Lemma convert_identity_witness :
  (exists formula,
     convert example_NumberToString example_now
       (JsNumber 5) "meter" "meter" "length"
     = Normal (Success (JsNumber 5) 5 "meter" "meter" "length"
                 formula example_now))
  /\ convertWithFactors 5 "meter" "meter" "length" = Normal 5
  /\ convertTemperature 5 "meter" "meter" = Normal 5.
Proof.
  apply (convert_identity example_NumberToString example_now
           "length" "meter"
           (Category.make "Length" "📏" "meter" length_units)
           (Unit.make "Meter" "m" 1 "metric") 5).
  - reflexivity.
  - reflexivity.
  - reflexivity.
Defined.

(** C6: [convert(Infinity, 'meter', 'centimeter', 'length')] is a success
    result, with convertedValue Infinity. *)
Lemma convert_infinity_succeeds :
  exists formula,
    convert example_NumberToString example_now
      (JsNumber infinity) "meter" "centimeter" "length"
    = Normal (Success (JsNumber infinity) infinity "meter" "centimeter"
                "length" formula example_now).
Proof. eexists. vm_compute. reflexivity. Qed.

(** C6, amended, at [convert('abc', 'meter', 'centimeter', 'length')]. *)
Lemma convert_invalid_value_witness :
  convert example_NumberToString example_now
    (JsString "abc") "meter" "centimeter" "length"
  = Normal (Failure "Value must be a valid number" (JsString "abc")
              "meter" "centimeter" "length" example_now)
  /\ includes "Value must be a valid number" "valid number" = true.
Proof.
  apply (convert_invalid_value example_NumberToString example_now
           (JsString "abc")).
  reflexivity.
Defined.

(** C7: [convert(1, '', 'centimeter', 'length')] and
    [convert(1, 'meter', '', 'length')], where different fields are missing,
    fail with the same message. *)
Lemma convert_missing_field_same_message :
  convert example_NumberToString example_now
    (JsNumber 1) "" "centimeter" "length"
  = Normal (Failure "From unit, to unit, and category are required"
              (JsNumber 1) "" "centimeter" "length" example_now)
  /\ convert example_NumberToString example_now
       (JsNumber 1) "meter" "" "length"
     = Normal (Failure "From unit, to unit, and category are required"
                 (JsNumber 1) "meter" "" "length" example_now).
Proof. split; reflexivity. Qed.

(** C7, amended, at [convert(1, 'meter', 'centimeter', undefined)]. *)
Lemma convert_missing_field_witness :
  convert example_NumberToString example_now
    (JsNumber 1) "meter" "centimeter" ArgUndefined
  = Normal (Failure "From unit, to unit, and category are required"
              (JsNumber 1) "meter" "centimeter" ArgUndefined example_now).
Proof.
  apply (convert_missing_field example_NumberToString example_now 1).
  - reflexivity.
  - right. right. reflexivity.
Defined.

(** C9 at the length category: its base unit is meter, with factor 1. *)
Lemma registry_base_units_witness :
  exists base,
    own_property length_units "meter" = Some base /\ Unit.factor base = 1.
Proof.
  apply (proj1 registry_base_units "length"
           (Category.make "Length" "📏" "meter" length_units)).
  left. reflexivity.
Defined.

(** C10: [convert(1, '', '', 'length')], with the empty string for both
    units, is a failure result. *)
Lemma convert_same_empty_unit_fails :
  convert example_NumberToString example_now (JsNumber 1) "" "" "length"
  = Normal (Failure "From unit, to unit, and category are required"
              (JsNumber 1) "" "" "length" example_now).
Proof. reflexivity. Qed.

(** C10, amended, at [convert(1, 'bogus', 'bogus', 'length')], a success, and
    at [convert(1, 'bogus', 'bogus', 'unknown')], a failure. *)
Lemma convert_same_unit_short_circuit_witness :
  (exists formula,
     convert example_NumberToString example_now
       (JsNumber 1) "bogus" "bogus" "length"
     = Normal (Success (JsNumber 1) 1 "bogus" "bogus" "length"
                 formula example_now))
  /\ (exists message,
        convert example_NumberToString example_now
          (JsNumber 1) "bogus" "bogus" "unknown"
        = Normal (Failure message (JsNumber 1) "bogus" "bogus" "unknown"
                    example_now)).
Proof.
  split.
  - apply (proj1 (convert_same_unit_short_circuit example_NumberToString
                    example_now)
             "length" "bogus"
             (Category.make "Length" "📏" "meter" length_units) 1).
    + reflexivity.
    + discriminate.
    + reflexivity.
  - apply (proj2 (convert_same_unit_short_circuit example_NumberToString
                    example_now)
             "unknown" "bogus" (JsNumber 1)).
    reflexivity.
Defined.



(** ** Round trips

    A conversion rounds to 10 decimals of the target unit, so going there and
    back keeps the value only up to that much of the target unit, and up to
    the precision of the numbers. *)

(** 1 second is 0.0166666667 minute, which is 1.000000002 second. *)
Example round_trip_second_minute :
  convertWithFactors 1 "second" "minute" "time" = Normal 0.0166666667
  /\ convertWithFactors 0.0166666667 "minute" "second" "time"
     = Normal 1.000000002.
Proof. split; vm_compute; reflexivity. Qed.

(** 1 nanometer is 0 light years to 10 decimals, which is 0 nanometer. *)
Example round_trip_nanometer_lightYear :
  convertWithFactors 1 "nanometer" "lightYear" "length" = Normal 0
  /\ convertWithFactors 0 "lightYear" "nanometer" "length" = Normal 0.
Proof. split; vm_compute; reflexivity. Qed.

(** 123456789.123 meter is 123456789122.99998 millimeter (the product by
    10^10 inside the rounding is beyond 2^53), which is 123456789.12299998
    meter. *)
Example round_trip_meter_millimeter :
  convertWithFactors 123456789.123 "meter" "millimeter" "length"
  = Normal 123456789122.99998
  /\ convertWithFactors 123456789122.99998 "millimeter" "meter" "length"
     = Normal 123456789.12299998.
Proof. split; vm_compute; reflexivity. Qed.

(** ** The repository's unit tests

    The exact expectations ([toBe]) of the unit tests of the conversion
    utilities, evaluated on the embedding. *)

Example test_roundToPrecision :
  roundToPrecision 3.14159265359 2 = 3.14
  /\ roundToPrecision 3.14159265359 4 = 3.1416
  /\ roundToPrecision 1000.123456789 3 = 1000.123
  /\ roundToPrecision 0 5 = 0
  /\ roundToPrecision (-3.14159) 2 = -3.14
  /\ roundToPrecision 1.999999 0 = 2.
Proof. repeat split; vm_compute; reflexivity. Qed.

Example test_convertTemperature :
  convertTemperature 32 "fahrenheit" "celsius" = Normal 0
  /\ convertTemperature 212 "fahrenheit" "celsius" = Normal 100
  /\ convertTemperature (-40) "fahrenheit" "celsius" = Normal (-40)
  /\ convertTemperature 100 "celsius" "kelvin" = Normal 373.15
  /\ convertTemperature (-273.15) "celsius" "kelvin" = Normal 0
  /\ convertTemperature 273.15 "kelvin" "celsius" = Normal 0
  /\ convertTemperature 373.15 "kelvin" "celsius" = Normal 100
  /\ convertTemperature 0 "kelvin" "celsius" = Normal (-273.15)
  /\ convertTemperature 25 "unknown" "celsius"
     = Throw (Error "Unknown temperature unit: unknown")
  /\ convertTemperature 25 "celsius" "unknown"
     = Throw (Error "Unknown temperature unit: unknown").
Proof. repeat split; vm_compute; reflexivity. Qed.

Example test_convertWithFactors :
  convertWithFactors 1 "meter" "centimeter" "length" = Normal 100
  /\ convertWithFactors 1 "kilometer" "meter" "length" = Normal 1000
  /\ convertWithFactors 1 "kilogram" "gram" "weight" = Normal 1000
  /\ convertWithFactors 1 "liter" "milliliter" "volume" = Normal 1000
  /\ convertWithFactors 1e10 "meter" "millimeter" "length" = Normal 1e13
  /\ convertWithFactors 1e-6 "meter" "millimeter" "length" = Normal 1e-3
  /\ convertWithFactors 1 "meter" "foot" "unknown"
     = Throw (Error "Unknown category: unknown")
  /\ convertWithFactors 1 "unknown" "meter" "length"
     = Throw (Error "Unknown unit 'unknown' in category 'length'")
  /\ convertWithFactors 1 "meter" "unknown" "length"
     = Throw (Error "Unknown unit 'unknown' in category 'length'").
Proof. repeat split; vm_compute; reflexivity. Qed.

(** * The listing functions and the HTTP routes

    The rest of [src/utils/conversionUtils.js], the route handlers that call
    the engine, the client's check of a value and the second server. A
    handler sends one response on every path: it is modelled as the function
    from the request's fields to that response. The server that mounts the
    routes is not among the sources: a POST handler is modelled from the
    fields of a body that was parsed from JSON, a GET handler from the
    strings of its path. *)

From Stdlib Require Import FloatAxioms.

(** ** Listings ([getUnitsForCategory], [getAllCategories]) *)

(** [Object.keys(o)]: the own keys in declaration order (no key of the
    registry is an integer index, which would come first). *)
Definition Object_keys {A : Type} (o : Object_ A) : list string :=
  map fst o.

(** [array.map(f)] with a callback that may throw: the first throw ends
    the traversal. *)
Fixpoint traverse {A B : Type} (f : A -> Completion B) (l : list A)
  : Completion (list B) :=
  match l with
  | [] => Normal []
  | a :: rest =>
      let* b := f a in
      let* bs := traverse f rest in
      Normal (b :: bs)
  end.

(** The message of the TypeError of [Object.keys(undefined)] (V8). *)
Definition cannot_convert : string :=
  "Cannot convert undefined or null to object".

(** The object [{ key: key, ...slot }]: the key and the own fields of the
    unit record; a slot that is no record of the registry spreads nothing. *)
Module ListedUnit.
Record t : Type := make { key : string; unit : option Unit.t }.
End ListedUnit.

Definition spread (slot : Slot Unit.t) : option Unit.t :=
  match slot with
  | Own u => Some u
  | _ => None
  end.

(** The object that [getUnitsForCategory] returns. *)
Module CategoryUnits.
Record t : Type := make
  { category : StrArg; name : string; icon : string; baseUnit : string;
    units : list ListedUnit.t }.
End CategoryUnits.

(** [getUnitsForCategory(category)]. On a category found on
    [Object.prototype] the reads of [name], [icon] and [baseUnit] do not
    throw, and [Object.keys(categoryData.units)] does. *)
Definition getUnitsForCategory (category : StrArg)
  : Completion CategoryUnits.t :=
  match Get UNIT_CATEGORIES (ToString category) with
  | Undefined => Throw (Error ("Unknown category: " ++ ToString category))
  | Inherited => Throw (TypeError cannot_convert)
  | Own categoryData =>
      Normal
        (CategoryUnits.make category
           (Category.name categoryData) (Category.icon categoryData)
           (Category.baseUnit categoryData)
           (map (fun key =>
                   ListedUnit.make key
                     (spread (Get (Category.units categoryData) key)))
              (Object_keys (Category.units categoryData))))
  end.

(** An entry of [getAllCategories]. *)
Module CategorySummary.
Record t : Type := make
  { key : string; name : string; icon : string; baseUnit : string;
    unitCount : nat }.
End CategorySummary.

(** [getAllCategories()]. *)
Definition getAllCategories : Completion (list CategorySummary.t) :=
  traverse
    (fun key =>
       match Get UNIT_CATEGORIES key with
       | Own categoryData =>
           Normal
             (CategorySummary.make key
                (Category.name categoryData) (Category.icon categoryData)
                (Category.baseUnit categoryData)
                (List.length (Object_keys (Category.units categoryData))))
       | Inherited => Throw (TypeError cannot_convert)
       | Undefined => Throw (TypeError (cannot_read "name"))
       end)
    (Object_keys UNIT_CATEGORIES).

(** [units.find(u => u.key === unit)]. *)
Definition find_unit (units : list ListedUnit.t) (unit : string)
  : option ListedUnit.t :=
  find (fun u => (ListedUnit.key u =? unit)%string) units.

(** The temperature unit that a key names. *)
Definition temperature_of (s : string) : option TemperatureUnit :=
  if (s =? "celsius")%string then Some celsius
  else if (s =? "fahrenheit")%string then Some fahrenheit
  else if (s =? "kelvin")%string then Some kelvin
  else if (s =? "rankine")%string then Some rankine
  else None.

(** ** JSON values

    The body of a POST request is what [JSON.parse] made of it
    ([express.json()]): a field holds any JSON value, not only a string. An
    array or an object is truthy, is never [===] to the value of another
    field, and is converted to a string where it is used as a property key
    or inside a template literal; that conversion can throw. *)

Unset Elimination Schemes.

Inductive Json : Type :=
| JNull
| JBoolean (b : bool)
| JNumber (x : float)
| JString (s : string)
| JArray (items : list Json)
| JObject (properties : list (string * Json)).

Set Elimination Schemes.

(** A field read from a parsed body: [None] is [undefined] (no such
    field). *)
Definition JsonArg : Type := option Json.

(** The string-or-absent arguments among them. *)
Definition of_StrArg (a : StrArg) : JsonArg :=
  match a with
  | ArgUndefined => None
  | ArgNull => Some JNull
  | ArgString s => Some (JString s)
  end.

(** The message of the TypeError of [ToPrimitive] on an object without a
    usable [toString] and [valueOf] (V8). *)
Definition cannot_convert_primitive : string :=
  "Cannot convert object to primitive value".

(** ** The engine on JSON values

    [convert] and its helpers once more, as the routes call them: on a
    number (the result of [parseFloat]) and three fields of a parsed body. On
    strings and absent fields this is the engine above
    ([json_convert_agrees]). *)

Module OnJson.

(** [ToBoolean]. *)
Definition truthy (a : JsonArg) : bool :=
  match a with
  | None => false
  | Some JNull => false
  | Some (JBoolean b) => b
  | Some (JNumber x) => negb ((x =? 0) || is_nan x)
  | Some (JString s) => negb (s =? "")%string
  | Some (JArray _) => true
  | Some (JObject _) => true
  end.

(** Strict equality [a === b] of two fields of a parsed body: primitives are
    compared by value; two arrays or objects are two different objects. *)
Definition strict_eq (a b : JsonArg) : bool :=
  match a, b with
  | None, None => true
  | Some JNull, Some JNull => true
  | Some (JBoolean x), Some (JBoolean y) => Bool.eqb x y
  | Some (JNumber x), Some (JNumber y) => (x =? y)
  | Some (JString s), Some (JString t) => (s =? t)%string
  | _, _ => false
  end.

(** [a === 'literal']. *)
Definition is_string (a : JsonArg) (lit : string) : bool :=
  strict_eq a (Some (JString lit)).

(** The result of [convert] on such arguments. *)
Inductive Result : Type :=
| Success (originalValue convertedValue : float)
    (fromUnit toUnit category : JsonArg) (formula timestamp : string)
| Failure (error : string) (originalValue : float)
    (fromUnit toUnit category : JsonArg) (timestamp : string).

Definition success (r : Result) : bool :=
  match r with
  | Success _ _ _ _ _ _ _ => true
  | Failure _ _ _ _ _ _ => false
  end.

Definition error (r : Result) : option string :=
  match r with
  | Success _ _ _ _ _ _ _ => None
  | Failure e _ _ _ _ _ => Some e
  end.

(** [Array.prototype.join]: the strings of the elements, separated by
    [","]; the first element that throws ends it. *)
Fixpoint join (element : Json -> Completion string) (l : list Json)
  : Completion string :=
  match l with
  | [] => Normal ""
  | x :: rest =>
      let* s := element x in
      match rest with
      | [] => Normal s
      | _ => let* r := join element rest in Normal (s ++ "," ++ r)
      end
  end.

Section Host.

(** [Number::toString] and the clock, as for the engine above. *)
Variable NumberToString : float -> string.
Variable now : string.

(** How the runtime shows an array or an object that is the key of a read
    on [undefined], in the message of the TypeError (the key is not
    converted to a string there). *)
Variable describe : Json -> string.

(** [ToString] of a JSON value. An array is joined with [","], [null]
    elements giving the empty string ([Array.prototype.join]). An object
    without a property [toString] of its own gives ["[object Object]"]
    ([Object.prototype.toString]); with one, which no JSON value makes
    callable, [valueOf] is tried, which gives no primitive either way, and
    the conversion throws. *)
Fixpoint ToString_json (j : Json) : Completion string :=
  match j with
  | JNull => Normal "null"
  | JBoolean b => Normal (if b then "true" else "false")
  | JNumber x => Normal (NumberToString x)
  | JString s => Normal s
  | JArray items =>
      join
        (fun element =>
           match element with
           | JNull => Normal ""
           | _ => ToString_json element
           end)
        items
  | JObject properties =>
      match own_property properties "toString" with
      | Some _ => Throw (TypeError cannot_convert_primitive)
      | None => Normal "[object Object]"
      end
  end.

(** [ToString], as a template literal or a property key applies it. *)
Definition ToString (a : JsonArg) : Completion string :=
  match a with
  | None => Normal "undefined"
  | Some j => ToString_json j
  end.

(** The message of the TypeError of [undefined[key]]. *)
Definition cannot_read_key (key : JsonArg) : string :=
  match key with
  | None => cannot_read "undefined"
  | Some JNull => cannot_read "null"
  | Some (JBoolean b) => cannot_read (if b then "true" else "false")
  | Some (JNumber x) => cannot_read (NumberToString x)
  | Some (JString s) => cannot_read s
  | Some (JArray items) =>
      "Cannot read properties of undefined" ++ describe (JArray items)
  | Some (JObject properties) =>
      "Cannot read properties of undefined" ++ describe (JObject properties)
  end.

(** [o[key]] where [o] is the result of a property read: the key is
    converted to a string once [o] is known to be an object. *)
Definition index {A : Type} (o : option (Object_ A)) (key : JsonArg)
  : Completion (Slot A) :=
  match o with
  | Some obj => let* k := ToString key in Normal (Get obj k)
  | None => Throw (TypeError (cannot_read_key key))
  end.

(** [convertTemperature(value, fromUnit, toUnit)]. *)
Definition convertTemperature (value : float) (fromUnit toUnit : JsonArg)
  : Completion float :=
  if strict_eq fromUnit toUnit then Normal value
  else
    (* Convert to Celsius first *)
    let* celsius :=
      if is_string fromUnit "celsius" then Normal value
      else if is_string fromUnit "fahrenheit" then
        Normal ((value - 32) * 5 / 9)
      else if is_string fromUnit "kelvin" then Normal (value - 273.15)
      else if is_string fromUnit "rankine" then
        Normal ((value - 491.67) * 5 / 9)
      else
        let* unit := ToString fromUnit in
        Throw (Error ("Unknown temperature unit: " ++ unit))
    in
    (* Convert from Celsius to target unit *)
    let* result :=
      if is_string toUnit "celsius" then Normal celsius
      else if is_string toUnit "fahrenheit" then Normal (celsius * 9 / 5 + 32)
      else if is_string toUnit "kelvin" then Normal (celsius + 273.15)
      else if is_string toUnit "rankine" then
        Normal (celsius * 9 / 5 + 491.67)
      else
        let* unit := ToString toUnit in
        Throw (Error ("Unknown temperature unit: " ++ unit))
    in
    Normal (roundToPrecision result default_decimals).

(** [convertWithFactors(value, fromUnit, toUnit, category)]. *)
Definition convertWithFactors (value : float)
  (fromUnit toUnit category : JsonArg) : Completion float :=
  if strict_eq fromUnit toUnit then Normal value
  else
    let* c := ToString category in
    let categoryData := Get UNIT_CATEGORIES c in
    if negb (defined categoryData) then
      Throw (Error ("Unknown category: " ++ c))
    else
      let* units := field categoryData "units" Category.units in
      let* fromUnitData := index units fromUnit in
      let* toUnitData := index units toUnit in
      if negb (defined fromUnitData) then
        let* unit := ToString fromUnit in
        Throw (Error ("Unknown unit '" ++ unit
                        ++ "' in category '" ++ c ++ "'"))
      else if negb (defined toUnitData) then
        let* unit := ToString toUnit in
        Throw (Error ("Unknown unit '" ++ unit
                        ++ "' in category '" ++ c ++ "'"))
      else
        (* Convert to base unit, then to target unit *)
        let* fromFactor := field fromUnitData "factor" Unit.factor in
        let baseValue := value * ToNumber fromFactor in
        let* toFactor := field toUnitData "factor" Unit.factor in
        let result := baseValue / ToNumber toFactor in
        Normal (roundToPrecision result default_decimals).

(** [getTemperatureFormula(fromUnit, toUnit)]. *)
Definition getTemperatureFormula (fromUnit toUnit : JsonArg)
  : Completion string :=
  let* f := ToString fromUnit in
  let* t := ToString toUnit in
  match Get formulas (f ++ "-" ++ t) with
  | Own formula => Normal formula
  | _ => Normal ""
  end.

(** [getConversionFormula(value, fromUnit, toUnit, category)]. *)
Definition getConversionFormula (value : float)
  (fromUnit toUnit category : JsonArg) : Completion string :=
  let* c := ToString category in
  let categoryData := Get UNIT_CATEGORIES c in
  if negb (defined categoryData) then Normal ""
  else
    let* units := field categoryData "units" Category.units in
    let* fromUnitData := index units fromUnit in
    let* toUnitData := index units toUnit in
    if negb (defined fromUnitData) || negb (defined toUnitData) then
      Normal ""
    else if is_string category "temperature" then
      getTemperatureFormula fromUnit toUnit
    else
      let* fromFactor := field fromUnitData "factor" Unit.factor in
      let* toFactor := field toUnitData "factor" Unit.factor in
      let factor := ToNumber fromFactor / ToNumber toFactor in
      let* fromSymbol := field fromUnitData "symbol" Unit.symbol in
      let* toSymbol := field toUnitData "symbol" Unit.symbol in
      Normal (NumberToString value ++ " " ++ show fromSymbol ++ " = "
                ++ NumberToString value ++ " × " ++ NumberToString factor
                ++ " = "
                ++ NumberToString
                     (roundToPrecision (value * factor) default_decimals)
                ++ " " ++ show toSymbol).

(** [convert(value, fromUnit, toUnit, category)] on a number. *)
Definition convert (value : float) (fromUnit toUnit category : JsonArg)
  : Completion Result :=
  try_catch
    (* Validate input *)
    (if isNaN value then Throw (Error "Value must be a valid number")
     else if negb (truthy fromUnit) || negb (truthy toUnit)
             || negb (truthy category) then
       Throw (Error "From unit, to unit, and category are required")
     else
       (* Check if category exists *)
       let* c := ToString category in
       if negb (defined (Get UNIT_CATEGORIES c)) then
         Throw (Error ("Unknown category: " ++ c))
       else
         (* Special handling for temperature *)
         let* result :=
           if is_string category "temperature" then
             convertTemperature value fromUnit toUnit
           else convertWithFactors value fromUnit toUnit category
         in
         let* formula := getConversionFormula value fromUnit toUnit category in
         Normal (Success value result fromUnit toUnit category formula now))
    (fun error =>
       Normal (Failure (message error) value fromUnit toUnit category now)).

End Host.

End OnJson.

(** The result of the engine above, as the engine on JSON values gives
    it. *)
Definition of_result (x : float) (r : ConversionResult) : OnJson.Result :=
  match r with
  | Success _ convertedValue fromUnit toUnit category formula timestamp =>
      OnJson.Success x convertedValue (of_StrArg fromUnit) (of_StrArg toUnit)
        (of_StrArg category) formula timestamp
  | Failure error _ fromUnit toUnit category timestamp =>
      OnJson.Failure error x (of_StrArg fromUnit) (of_StrArg toUnit)
        (of_StrArg category) timestamp
  end.

(** ** Requests and responses *)

(** An entry of the [results] array of a batch response:
    [{ index, ...result }], or
    [{ index, success: false, error, conversion }]. *)
Inductive BatchResult : Type :=
| BatchConverted (index : nat) (result : OnJson.Result)
| BatchRejected (index : nat) (error : string) (conversion : Json).

Definition batch_index (r : BatchResult) : nat :=
  match r with
  | BatchConverted index _ => index
  | BatchRejected index _ _ => index
  end.

Definition batch_success (r : BatchResult) : bool :=
  match r with
  | BatchConverted _ result => OnJson.success result
  | BatchRejected _ _ _ => false
  end.

(** The objects that the handlers send. *)
Inductive Body : Type :=
| ErrorBody (error code : string)
| ConversionErrorBody (error : string) (details : OnJson.Result)
| ConversionBody (result : OnJson.Result)
| BatchBody (totalConversions successfulConversions failedConversions : nat)
    (results : list BatchResult) (timestamp : string)
| FormulaBody (category fromUnit toUnit formula timestamp : string)
| ValidationBody (valid : bool) (errors : list string)
    (conversionValid : bool) (conversionError : option string)
    (timestamp : string)
| CategoryBody (categoryData : CategoryUnits.t) (timestamp : string)
| UnitBody (category categoryName categoryIcon : string)
    (unit : ListedUnit.t) (timestamp : string).

(** [res.status(status).json(body)]; [res.json(body)] has status 200. *)
Record Response : Type := respond { status : nat; body : Body }.

(** [try { return body } catch (error) { return on_error(error) }], where
    the catch block does not throw. A handler is one: each of its blocks
    sends a response. *)
Definition try_return {A : Type} (body : Completion A)
  (on_error : JsError -> A) : A :=
  match body with
  | Normal a => a
  | Throw error => on_error error
  end.

(** [value === undefined || value === null]. *)
Definition nullish (value : JsonArg) : bool :=
  match value with
  | None => true
  | Some JNull => true
  | Some _ => false
  end.

(** [conversion.name] for the four names [value], [fromUnit], [toUnit] and
    [category], none of which an array, a wrapped primitive or
    [Object.prototype] has: an own property of an object, and [undefined]
    otherwise. *)
Definition property (conversion : Json) (name : string) : JsonArg :=
  match conversion with
  | JObject properties => own_property properties name
  | _ => None
  end.

(** [array.map((x, index) => f(index, x))]. *)
Fixpoint mapi_from {A B : Type} (start : nat) (f : nat -> A -> B)
  (l : list A) : list B :=
  match l with
  | [] => []
  | a :: rest => f start a :: mapi_from (S start) f rest
  end.

Definition mapi {A B : Type} (f : nat -> A -> B) (l : list A) : list B :=
  mapi_from 0 f l.

(** The message of the TypeError of destructuring [null] (V8). *)
Definition cannot_destructure : string :=
  "Cannot destructure property 'value' of 'conversion' as it is null.".

(** [const { value, fromUnit, toUnit, category } = conversion], which throws
    on [null]. *)
Definition destructure (conversion : Json)
  : Completion (JsonArg * JsonArg * JsonArg * JsonArg) :=
  match conversion with
  | JNull => Throw (TypeError cannot_destructure)
  | _ =>
      Normal (property conversion "value", property conversion "fromUnit",
              property conversion "toUnit", property conversion "category")
  end.



(** ** The dependency-free server (the second [convert])

    The repository also holds a server without dependencies, with a table of
    its own (three categories, units without the classification tag) and a
    [convert] of its own. *)

Module Simple.

Record SimpleUnit : Type := make_unit
  { name : string; symbol : string; factor : float }.

Record SimpleCategory : Type := make_category
  { category_name : string; icon : string; baseUnit : string;
    units : Object_ SimpleUnit }.

Definition length_units : Object_ SimpleUnit :=
  [ ("meter", make_unit "Meter" "m" 1);
    ("centimeter", make_unit "Centimeter" "cm" 0.01);
    ("millimeter", make_unit "Millimeter" "mm" 0.001);
    ("kilometer", make_unit "Kilometer" "km" 1000);
    ("inch", make_unit "Inch" "in" 0.0254);
    ("foot", make_unit "Foot" "ft" 0.3048);
    ("yard", make_unit "Yard" "yd" 0.9144);
    ("mile", make_unit "Mile" "mi" 1609.344) ]%float.

Definition weight_units : Object_ SimpleUnit :=
  [ ("kilogram", make_unit "Kilogram" "kg" 1);
    ("gram", make_unit "Gram" "g" 0.001);
    ("pound", make_unit "Pound" "lb" 0.453592);
    ("ounce", make_unit "Ounce" "oz" 0.0283495) ]%float.

Definition temperature_units : Object_ SimpleUnit :=
  [ ("celsius", make_unit "Celsius" "°C" 1);
    ("fahrenheit", make_unit "Fahrenheit" "°F" 1);
    ("kelvin", make_unit "Kelvin" "K" 1) ]%float.

Definition UNIT_CATEGORIES : Object_ SimpleCategory :=
  [ ("length", make_category "Length" "📏" "meter" length_units);
    ("weight", make_category "Weight" "⚖️" "kilogram" weight_units);
    ("temperature",
     make_category "Temperature" "🌡️" "celsius" temperature_units) ].

(** [convertTemperature(value, fromUnit, toUnit)]: no rounding here. *)
Definition convertTemperature (value : float) (fromUnit toUnit : StrArg)
  : Completion float :=
  if strict_eq fromUnit toUnit then Normal value
  else
    let* celsius :=
      if is_string fromUnit "celsius" then Normal value
      else if is_string fromUnit "fahrenheit" then
        Normal ((value - 32) * 5 / 9)
      else if is_string fromUnit "kelvin" then Normal (value - 273.15)
      else Throw (Error ("Unknown temperature unit: " ++ ToString fromUnit))
    in
    if is_string toUnit "celsius" then Normal celsius
    else if is_string toUnit "fahrenheit" then Normal (celsius * 9 / 5 + 32)
    else if is_string toUnit "kelvin" then Normal (celsius + 273.15)
    else Throw (Error ("Unknown temperature unit: " ++ ToString toUnit)).

(** [convertWithFactors(value, fromUnit, toUnit, category)]. *)
Definition convertWithFactors (value : float)
  (fromUnit toUnit category : StrArg) : Completion float :=
  if strict_eq fromUnit toUnit then Normal value
  else
    let categoryData := Get UNIT_CATEGORIES (ToString category) in
    if negb (defined categoryData) then
      Throw (Error ("Unknown category: " ++ ToString category))
    else
      let* units := field categoryData "units" units in
      let* fromUnitData := index units (ToString fromUnit) in
      let* toUnitData := index units (ToString toUnit) in
      if negb (defined fromUnitData) || negb (defined toUnitData) then
        Throw (Error ("Unknown unit in category " ++ ToString category))
      else
        let* fromFactor := field fromUnitData "factor" factor in
        let baseValue := value * ToNumber fromFactor in
        let* toFactor := field toUnitData "factor" factor in
        Normal (baseValue / ToNumber toFactor).

(** The result objects of this [convert]: no formula. *)
Inductive Result : Type :=
| Success (originalValue : JsValue) (convertedValue : float)
    (fromUnit toUnit category : StrArg) (timestamp : string)
| Failure (error : string) (originalValue : JsValue)
    (fromUnit toUnit category : StrArg) (timestamp : string).

(** [convert(value, fromUnit, toUnit, category)]; [now] is the clock. *)
Definition convert (now : string) (value : JsValue)
  (fromUnit toUnit category : StrArg) : Completion Result :=
  try_catch
    (match value with
     | JsNumber x =>
         if isNaN x then Throw (Error "Value must be a valid number")
         else
           let* result :=
             if is_string category "temperature" then
               convertTemperature x fromUnit toUnit
             else convertWithFactors x fromUnit toUnit category
           in
           Normal (Success value (Math_round (result * 1e10) / 1e10)
                     fromUnit toUnit category now)
     | _ => Throw (Error "Value must be a valid number")
     end)
    (fun error =>
       Normal (Failure (message error) value fromUnit toUnit category now)).

End Simple.

(** ** The client's check of a value ([CONFIG.validateValue]) *)

(** [CONFIG.CONVERSION.MIN_VALUE] and [MAX_VALUE]. *)
Definition MIN_VALUE : float := -1e15.
Definition MAX_VALUE : float := 1e15.

(** [{ valid: true, value }] or [{ valid: false, error }]. *)
Inductive Validation : Type :=
| Valid (value : float)
| Invalid (error : string).

(** [parseFloat] for the closed examples: a number parses to itself (but
    for -0), and the other values used there do not parse. *)
Definition example_parseFloat (value : JsValue) : float :=
  match value with
  | JsNumber x => x
  | _ => nan
  end.

(** The rendering of a key for the closed examples, which no statement
    depends on. *)
Definition example_describe (key : Json) : string := "".

(** A [parseFloat] for the closed examples of the routes: a string of
    decimal digits parses to its number, and the other strings used there do
    not parse. *)
Fixpoint parse_digits (s : string) (acc : option Z) : option Z :=
  match s with
  | EmptyString => acc
  | String a rest =>
      let d := (Z.of_N (N_of_ascii a) - 48)%Z in
      if ((0 <=? d) && (d <=? 9))%Z then
        parse_digits rest
          (Some (10 * match acc with Some n => n | None => 0 end + d)%Z)
      else acc
  end.

Definition example_parseFloat_digits (value : JsValue) : float :=
  match value with
  | JsNumber x => x
  | JsString s =>
      match parse_digits s None with
      | Some n => of_uint63 (Uint63.of_Z n)
      | None => nan
      end
  | _ => nan
  end.

Section Routes.

(** [Number::toString] and the clock, as for the engine. *)
Variable NumberToString : float -> string.
Variable now : string.

(** [parseFloat] (on a string it reads the longest numeric prefix, and does
    not throw). *)
Variable parseFloat : JsValue -> float.

(** The runtime's rendering of a key that is an array or an object, as for
    the engine on JSON values. *)
Variable describe : Json -> string.

(** *** [src/routes/conversionRoutes.js] *)

(** [parseFloat(value)] on a field of the body: the field is converted to a
    string first, and that conversion throws on an object with a property
    [toString] of its own. *)
Definition parseFloat_field (value : JsonArg) : Completion float :=
  let* inputString := OnJson.ToString NumberToString value in
  Normal (parseFloat (JsString inputString)).

(** [POST /api/v1/convert], on the four fields of [req.body]. *)
Definition post_convert (value fromUnit toUnit category : JsonArg)
  : Response :=
  try_return
    (* Validate required fields *)
    (if nullish value then
       Normal (respond 400 (ErrorBody "Value is required" "MISSING_VALUE"))
     else if negb (OnJson.truthy fromUnit) then
       Normal (respond 400
                 (ErrorBody "From unit is required" "MISSING_FROM_UNIT"))
     else if negb (OnJson.truthy toUnit) then
       Normal (respond 400 (ErrorBody "To unit is required" "MISSING_TO_UNIT"))
     else if negb (OnJson.truthy category) then
       Normal (respond 400
                 (ErrorBody "Category is required" "MISSING_CATEGORY"))
     else
       (* Convert value to number *)
       let* numericValue := parseFloat_field value in
       if isNaN numericValue then
         Normal (respond 400
                   (ErrorBody "Value must be a valid number" "INVALID_VALUE"))
       else
         (* Perform conversion *)
         let* result :=
           OnJson.convert NumberToString now describe numericValue fromUnit
             toUnit category
         in
         match result with
         | OnJson.Success _ _ _ _ _ _ _ =>
             Normal (respond 200 (ConversionBody result))
         | OnJson.Failure error _ _ _ _ _ =>
             Normal (respond 400 (ConversionErrorBody error result))
         end)
    (fun _ =>
       respond 500
         (ErrorBody "Internal server error during conversion"
            "INTERNAL_ERROR")).

(** The callback of the batch route on one entry of the array. *)
Definition batch_entry (index : nat) (conversion : Json) : BatchResult :=
  try_return
    (let* fields := destructure conversion in
     let '(value, fromUnit, toUnit, category) := fields in
     let* numericValue := parseFloat_field value in
     if isNaN numericValue then
       Normal (BatchRejected index "Invalid value" conversion)
     else
       let* result :=
         OnJson.convert NumberToString now describe numericValue fromUnit
           toUnit category
       in
       Normal (BatchConverted index result))
    (fun error => BatchRejected index (message error) conversion).

(** [POST /api/v1/convert/batch], on the field [conversions] of
    [req.body]. *)
Definition post_batch (conversions : JsonArg) : Response :=
  try_return
    (match conversions with
     | Some (JArray conversions) =>
         if (List.length conversions =? 0)%nat then
           Normal (respond 400
                     (ErrorBody "At least one conversion is required"
                        "EMPTY_CONVERSIONS"))
         else if (100 <? List.length conversions)%nat then
           Normal (respond 400
                     (ErrorBody "Maximum 100 conversions allowed per batch"
                        "TOO_MANY_CONVERSIONS"))
         else
           let results := mapi batch_entry conversions in
           let successCount := List.length (filter batch_success results) in
           let errorCount := (List.length results - successCount)%nat in
           Normal (respond 200
                     (BatchBody (List.length results) successCount errorCount
                        results now))
     | _ =>
         Normal (respond 400
                   (ErrorBody "Conversions must be an array"
                      "INVALID_CONVERSIONS_FORMAT"))
     end)
    (fun _ =>
       respond 500
         (ErrorBody "Internal server error during batch conversion"
            "INTERNAL_ERROR")).

(** [GET /api/v1/convert/formula/:category/:fromUnit/:toUnit]. *)
Definition get_formula (category fromUnit toUnit : string) : Response :=
  try_return
    (let* formula :=
       getConversionFormula NumberToString 1 fromUnit toUnit category
     in
     Normal (respond 200 (FormulaBody category fromUnit toUnit formula now)))
    (fun error => respond 400 (ErrorBody (message error) "FORMULA_ERROR")).

(** The errors that [POST /api/v1/convert/validate] collects before it
    tries the conversion; the [parseFloat] of this part is not inside the
    inner [try]. *)
Definition validation_errors (value fromUnit toUnit category : JsonArg)
  : Completion (list string) :=
  let* value_errors :=
    if nullish value then Normal ["Value is required"]
    else
      let* numericValue := parseFloat_field value in
      if isNaN numericValue then Normal ["Value must be a valid number"]
      else Normal []
  in
  Normal
    (value_errors
     ++ (if negb (OnJson.truthy fromUnit) then ["From unit is required"]
         else [])
     ++ (if negb (OnJson.truthy toUnit) then ["To unit is required"] else [])
     ++ (if negb (OnJson.truthy category) then ["Category is required"]
         else []))%list.

(** [POST /api/v1/convert/validate], on the four fields of [req.body]. *)
Definition post_validate (value fromUnit toUnit category : JsonArg)
  : Response :=
  try_return
    (let* errors := validation_errors value fromUnit toUnit category in
     (* Test conversion if no basic errors *)
     let '(conversionValid, conversionError) :=
       if (List.length errors =? 0)%nat then
         try_return
           (let* numericValue := parseFloat_field value in
            let* result :=
              OnJson.convert NumberToString now describe numericValue
                fromUnit toUnit category
            in
            Normal (OnJson.success result, OnJson.error result))
           (fun error => (false, Some (message error)))
       else (false, None)
     in
     Normal (respond 200
               (ValidationBody
                  ((List.length errors =? 0)%nat && conversionValid)
                  errors conversionValid conversionError now)))
    (fun _ =>
       respond 500
         (ErrorBody "Internal server error during validation"
            "INTERNAL_ERROR")).

(** *** The category routes *)

(** [GET /api/v1/categories/:category]. *)
Definition get_category (category : string) : Response :=
  try_return
    (if negb (truthy category) then
       Normal (respond 400
                 (ErrorBody "Category parameter is required"
                    "MISSING_CATEGORY"))
     else
       let* categoryData := getUnitsForCategory category in
       Normal (respond 200 (CategoryBody categoryData now)))
    (fun error =>
       if includes (message error) "Unknown category" then
         respond 404 (ErrorBody (message error) "CATEGORY_NOT_FOUND")
       else
         respond 500
           (ErrorBody "Internal server error while fetching category units"
              "INTERNAL_ERROR")).

(** [GET /api/v1/categories/:category/units/:unit]. *)
Definition get_unit (category unit : string) : Response :=
  try_return
    (if negb (truthy category) then
       Normal (respond 400
                 (ErrorBody "Category parameter is required"
                    "MISSING_CATEGORY"))
     else if negb (truthy unit) then
       Normal (respond 400
                 (ErrorBody "Unit parameter is required" "MISSING_UNIT"))
     else
       let* categoryData := getUnitsForCategory category in
       match find_unit (CategoryUnits.units categoryData) unit with
       | None =>
           Normal (respond 404
                     (ErrorBody ("Unit '" ++ unit ++ "' not found in category '"
                                   ++ category ++ "'")
                        "UNIT_NOT_FOUND"))
       | Some unitData =>
           Normal (respond 200
                     (UnitBody category (CategoryUnits.name categoryData)
                        (CategoryUnits.icon categoryData) unitData now))
       end)
    (fun error =>
       if includes (message error) "Unknown category" then
         respond 404 (ErrorBody (message error) "CATEGORY_NOT_FOUND")
       else
         respond 500
           (ErrorBody
              "Internal server error while fetching unit information"
              "INTERNAL_ERROR")).

(** *** The client *)

(** [CONFIG.validateValue(value)]. *)
Definition validateValue (value : JsValue) : Validation :=
  let numValue := parseFloat value in
  if isNaN numValue then Invalid "Please enter a valid number"
  else if (numValue <? MIN_VALUE) || (MAX_VALUE <? numValue) then
    Invalid ("Value must be between " ++ NumberToString MIN_VALUE ++ " and "
               ++ NumberToString MAX_VALUE)
  else Valid numValue.

End Routes.

(** * Properties of the listings and the routes *)

(** ** Listings *)

Lemma own_property_key_In {A : Type} (o : Object_ A) (k : string) :
  In k (Object_keys o) -> exists a, own_property o k = Some a.
Proof.
  induction o as [|[k' a'] rest IH]; simpl; [intros []|].
  intros [->|H].
  - rewrite String.eqb_refl. eauto.
  - destruct (k' =? k)%string; eauto.
Qed.

(** Looking a key up in the listing of an object is looking it up in the
    object. *)
Lemma find_listed (o l : Object_ Unit.t) (k : string) :
  find_unit
    (map (fun key => ListedUnit.make key (spread (Get o key)))
       (Object_keys l)) k
  = match own_property l k with
    | Some _ => Some (ListedUnit.make k (spread (Get o k)))
    | None => None
    end.
Proof.
  unfold find_unit. induction l as [|[k' a'] rest IH]; simpl; [reflexivity|].
  destruct (k' =? k)%string eqn:E; [|exact IH].
  apply String.eqb_eq in E. now subst.
Qed.

Lemma getUnitsForCategory_own (c : StrArg) (cat : Category.t) :
  own_property UNIT_CATEGORIES (ToString c) = Some cat ->
  getUnitsForCategory c
  = Normal
      (CategoryUnits.make c (Category.name cat) (Category.icon cat)
         (Category.baseUnit cat)
         (map (fun key =>
                 ListedUnit.make key (spread (Get (Category.units cat) key)))
            (Object_keys (Category.units cat)))).
Proof. intros H. unfold getUnitsForCategory. now rewrite (Get_own _ _ _ H). Qed.

Lemma getUnitsForCategory_normal (c : StrArg) (data : CategoryUnits.t) :
  getUnitsForCategory c = Normal data ->
  exists cat, own_property UNIT_CATEGORIES (ToString c) = Some cat.
Proof.
  unfold getUnitsForCategory, Get.
  destruct (own_property UNIT_CATEGORIES (ToString c)) as [cat|]; [eauto|].
  destruct (existsb _ _); discriminate.
Qed.

(** X1. [getAllCategories] does not throw, and every category it lists is
    one that [getUnitsForCategory] accepts, with the same name, icon and
    base unit and with as many units as the listed unitCount. *)
Theorem getAllCategories_consistent :
  exists categories,
    getAllCategories = Normal categories
    /\ forall s, In s categories ->
         exists data,
           getUnitsForCategory (CategorySummary.key s) = Normal data
           /\ CategoryUnits.name data = CategorySummary.name s
           /\ CategoryUnits.icon data = CategorySummary.icon s
           /\ CategoryUnits.baseUnit data = CategorySummary.baseUnit s
           /\ List.length (CategoryUnits.units data)
              = CategorySummary.unitCount s.
Proof.
  eexists. split; [vm_compute; reflexivity|].
  intros s H. cbn in H.
  repeat (destruct H as [<-|H];
          [eexists; repeat split; reflexivity|]).
  destruct H.
Qed.

(** X2. In the list of units that [getUnitsForCategory] returns for a
    category of the registry, searching a key ([units.find(u => u.key ===
    k)]) finds the entry [{ key: k, ...unit }] of the registry's unit [k],
    and finds nothing for any other string, the property names of
    [Object.prototype] included. *)
Theorem getUnitsForCategory_find (c : StrArg) (cat : Category.t)
  (data : CategoryUnits.t) (k : string) :
  own_property UNIT_CATEGORIES (ToString c) = Some cat ->
  getUnitsForCategory c = Normal data ->
  find_unit (CategoryUnits.units data) k
  = match own_property (Category.units cat) k with
    | Some u => Some (ListedUnit.make k (Some u))
    | None => None
    end.
Proof.
  intros Hc Hd. rewrite (getUnitsForCategory_own c cat Hc) in Hd.
  injection Hd as <-. cbn [CategoryUnits.units].
  rewrite find_listed.
  destruct (own_property (Category.units cat) k) as [u|] eqn:E;
    [|reflexivity].
  now rewrite (Get_own _ _ _ E).
Qed.

(** ** The engine on JSON values *)


Section JsonEngineProperties.

Variable NumberToString : float -> string.
Variable now : string.
Variable describe : Json -> string.












(** [convert] completes normally. *)
Lemma json_convert_completes (x : float) (f t c : JsonArg) :
  exists r, OnJson.convert NumberToString now describe x f t c = Normal r.
Proof.
  unfold OnJson.convert.
  match goal with |- exists r, try_catch ?b ?h = _ => destruct b as [r|e] end;
    eexists; reflexivity.
Qed.



(** *** The two engines agree on strings and absent fields *)

Lemma json_ToString_of_StrArg (a : StrArg) :
  OnJson.ToString NumberToString (of_StrArg a) = Normal (ToString a).
Proof. destruct a; reflexivity. Qed.

Lemma json_truthy_of_StrArg (a : StrArg) :
  OnJson.truthy (of_StrArg a) = truthy a.
Proof. destruct a; reflexivity. Qed.

Lemma json_strict_eq_of_StrArg (a b : StrArg) :
  OnJson.strict_eq (of_StrArg a) (of_StrArg b) = strict_eq a b.
Proof. destruct a, b; reflexivity. Qed.

Lemma json_is_string_of_StrArg (a : StrArg) (lit : string) :
  OnJson.is_string (of_StrArg a) lit = is_string a lit.
Proof. destruct a; reflexivity. Qed.

Lemma json_index_of_StrArg {A : Type} (o : option (Object_ A)) (a : StrArg) :
  OnJson.index NumberToString describe o (of_StrArg a)
  = index o (ToString a).
Proof. destruct o, a; reflexivity. Qed.

Lemma json_convertTemperature_agrees (v : float) (f t : StrArg) :
  OnJson.convertTemperature NumberToString v (of_StrArg f) (of_StrArg t)
  = convertTemperature v f t.
Proof.
  unfold OnJson.convertTemperature, convertTemperature.
  rewrite json_strict_eq_of_StrArg, !json_is_string_of_StrArg,
    !json_ToString_of_StrArg.
  destruct (strict_eq f t); [reflexivity|].
  destruct (is_string f "celsius"), (is_string f "fahrenheit"),
    (is_string f "kelvin"), (is_string f "rankine"),
    (is_string t "celsius"), (is_string t "fahrenheit"),
    (is_string t "kelvin"), (is_string t "rankine"); reflexivity.
Qed.

Lemma json_convertWithFactors_agrees (v : float) (f t c : StrArg) :
  OnJson.convertWithFactors NumberToString describe v
    (of_StrArg f) (of_StrArg t) (of_StrArg c)
  = convertWithFactors v f t c.
Proof.
  unfold OnJson.convertWithFactors, convertWithFactors.
  rewrite json_strict_eq_of_StrArg, !json_ToString_of_StrArg.
  cbn [bind].
  destruct (strict_eq f t); [reflexivity|].
  destruct (Get UNIT_CATEGORIES (ToString c)) as [cat| |];
    cbn [defined negb field bind]; try reflexivity.
  all: rewrite !json_index_of_StrArg.
  - destruct (index (Some (Category.units cat)) (ToString f)) as [uf|];
      cbn [bind]; [|reflexivity].
    destruct (index (Some (Category.units cat)) (ToString t)) as [ut|];
      cbn [bind]; [|reflexivity].
    destruct (negb (defined uf)), (negb (defined ut)); reflexivity.
  - reflexivity.
Qed.

Lemma json_getConversionFormula_agrees (v : float) (f t c : StrArg) :
  OnJson.getConversionFormula NumberToString describe v
    (of_StrArg f) (of_StrArg t) (of_StrArg c)
  = getConversionFormula NumberToString v f t c.
Proof.
  unfold OnJson.getConversionFormula, getConversionFormula,
    OnJson.getTemperatureFormula, getTemperatureFormula.
  rewrite json_is_string_of_StrArg, !json_ToString_of_StrArg.
  cbn [bind].
  destruct (Get UNIT_CATEGORIES (ToString c)) as [cat| |];
    cbn [defined negb field bind]; try reflexivity.
  all: rewrite !json_index_of_StrArg.
  - destruct (index (Some (Category.units cat)) (ToString f)) as [uf|];
      cbn [bind]; [|reflexivity].
    destruct (index (Some (Category.units cat)) (ToString t)) as [ut|];
      cbn [bind]; [|reflexivity].
    destruct (negb (defined uf) || negb (defined ut)); [reflexivity|].
    destruct (is_string c "temperature"); [|reflexivity].
    destruct (Get formulas (ToString f ++ "-" ++ ToString t)); reflexivity.
  - reflexivity.
Qed.

(** On a number and string-or-absent fields, the engine on JSON values is
    the engine of the first part. *)
Lemma json_convert_agrees (x : float) (f t c : StrArg) :
  OnJson.convert NumberToString now describe x
    (of_StrArg f) (of_StrArg t) (of_StrArg c)
  = let* r := convert NumberToString now (JsNumber x) f t c in
    Normal (of_result x r).
Proof.
  unfold OnJson.convert, convert.
  rewrite !json_truthy_of_StrArg, json_is_string_of_StrArg,
    json_convertTemperature_agrees, json_convertWithFactors_agrees,
    json_getConversionFormula_agrees, json_ToString_of_StrArg.
  cbn [bind].
  destruct (isNaN x); [reflexivity|].
  destruct (negb (truthy f) || negb (truthy t) || negb (truthy c));
    [reflexivity|].
  destruct (negb (defined (Get UNIT_CATEGORIES (ToString c))));
    [reflexivity|].
  destruct (if is_string c "temperature" then convertTemperature x f t
            else convertWithFactors x f t c) as [r|e]; [|reflexivity].
  cbn [bind].
  destruct (getConversionFormula NumberToString x f t c); reflexivity.
Qed.

End JsonEngineProperties.

Section RouteProperties.

Variable NumberToString : float -> string.
Variable now : string.
Variable parseFloat : JsValue -> float.
Variable describe : Json -> string.


(** ** [POST /api/v1/convert] *)


(** ** [POST /api/v1/convert/validate] *)



(** ** [POST /api/v1/convert/batch] *)

Lemma batch_entry_index (i : nat) (conversion : Json) :
  batch_index
    (batch_entry NumberToString now parseFloat describe i conversion)
  = i.
Proof.
  unfold batch_entry.
  destruct (destructure conversion) as [[[[value f] t] c]|e]; cbn [bind];
    [|reflexivity].
  destruct (parseFloat_field NumberToString parseFloat value) as [x|ex];
    cbn [bind]; [|reflexivity].
  destruct (isNaN x); [reflexivity|].
  destruct (json_convert_completes NumberToString now describe x f t c)
    as [r ->].
  reflexivity.
Qed.

Lemma mapi_from_length {A B : Type} (f : nat -> A -> B) (l : list A)
  (start : nat) :
  List.length (mapi_from start f l) = List.length l.
Proof.
  revert start. induction l as [|a l IH]; intros start; simpl;
    [reflexivity|]. now rewrite IH.
Qed.

Lemma mapi_from_nth {A B : Type} (f : nat -> A -> B) (l : list A)
  (start i : nat) (a : A) :
  nth_error l i = Some a ->
  nth_error (mapi_from start f l) i = Some (f (start + i)%nat a).
Proof.
  revert start i. induction l as [|a' l IH]; intros start [|i]; simpl;
    try discriminate.
  - intros [= ->]. now rewrite Nat.add_0_r.
  - intros H. rewrite (IH (S start) i H). f_equal. f_equal. lia.
Qed.

Lemma filter_length_le {A : Type} (p : A -> bool) (l : list A) :
  (List.length (filter p l) <= List.length l)%nat.
Proof.
  induction l as [|a l IH]; simpl; [lia|]. destruct (p a); simpl; lia.
Qed.

(** X5. For an array of 1 to 100 entries, [POST /api/v1/convert/batch]
    answers 200 with one result per entry, in the order of the entries: the
    result at position [i] carries index [i] and is the outcome of entry [i]
    alone; the successful and failed counts add up to the number of
    entries. *)
Theorem post_batch_preserves_order (conversions : list Json) :
  (1 <= List.length conversions <= 100)%nat ->
  exists succeeded failed results,
    post_batch NumberToString now parseFloat describe
      (Some (JArray conversions))
    = respond 200
        (BatchBody (List.length conversions) succeeded failed results now)
    /\ List.length results = List.length conversions
    /\ (succeeded + failed = List.length conversions)%nat
    /\ succeeded = List.length (filter batch_success results)
    /\ forall i conversion,
         nth_error conversions i = Some conversion ->
         exists r,
           nth_error results i = Some r
           /\ batch_index r = i
           /\ r = batch_entry NumberToString now parseFloat describe i
                    conversion.
Proof.
  intros [Hlo Hhi]. unfold post_batch.
  destruct (Nat.eqb_spec (List.length conversions) 0) as [E|_]; [lia|].
  destruct (Nat.ltb_spec 100 (List.length conversions)) as [E|_]; [lia|].
  cbn [try_return].
  set (results := mapi (batch_entry NumberToString now parseFloat describe)
                    conversions).
  assert (L : List.length results = List.length conversions)
    by apply mapi_from_length.
  exists (List.length (filter batch_success results)),
    (List.length results - List.length (filter batch_success results))%nat,
    results.
  split; [now rewrite L|]. split; [exact L|].
  split; [pose proof (filter_length_le batch_success results); lia|].
  split; [reflexivity|].
  intros i conversion H. eexists. split.
  - unfold results, mapi. exact (mapi_from_nth _ _ 0 i conversion H).
  - split; [apply batch_entry_index | reflexivity].
Qed.

(** ** [GET /api/v1/convert/formula/:category/:fromUnit/:toUnit] *)

(** X6. The formula route answers 400 FORMULA_ERROR exactly when the
    category is a property name of [Object.prototype] (such as
    "constructor"); for every other category it answers 200, with the empty
    formula when the category is not in the registry. *)
Theorem get_formula_responses (category f t : string) :
  match Get UNIT_CATEGORIES category with
  | Inherited =>
      get_formula NumberToString now category f t
      = respond 400 (ErrorBody (cannot_read f) "FORMULA_ERROR")
  | Undefined =>
      get_formula NumberToString now category f t
      = respond 200 (FormulaBody category f t "" now)
  | Own _ =>
      exists formula,
        get_formula NumberToString now category f t
        = respond 200 (FormulaBody category f t formula now)
  end.
Proof.
  unfold get_formula.
  destruct (Get UNIT_CATEGORIES category) as [cat| |] eqn:G.
  - unfold Get in G.
    destruct (own_property UNIT_CATEGORIES category) as [cat'|] eqn:O;
      [|destruct (existsb _ _); discriminate].
    destruct (getConversionFormula_registry NumberToString category cat' 1
                f t O) as [s ->].
    eexists. reflexivity.
  - now rewrite (getConversionFormula_inherited NumberToString 1 f t category
                   G).
  - now rewrite (getConversionFormula_undefined NumberToString 1 f t category
                   G).
Qed.

(** ** The category routes *)

Lemma inherited_nonempty {A : Type} (o : Object_ A) (k : string) :
  Get o k = Inherited -> truthy k = true.
Proof.
  unfold Get. destruct (own_property o k); [discriminate|].
  destruct k; [discriminate|reflexivity].
Qed.

(** X7. [GET /api/v1/categories/:category] answers 200 with the listing of
    [getUnitsForCategory] for a category of the registry, 404
    CATEGORY_NOT_FOUND with "Unknown category: ..." for any other non-empty
    name, except a property name of [Object.prototype] (such as
    "constructor"), for which it answers 500 INTERNAL_ERROR. *)
Theorem get_category_responses (category : string) :
  match Get UNIT_CATEGORIES category with
  | Own _ =>
      exists data,
        getUnitsForCategory category = Normal data
        /\ get_category now category = respond 200 (CategoryBody data now)
  | Inherited =>
      get_category now category
      = respond 500
          (ErrorBody "Internal server error while fetching category units"
             "INTERNAL_ERROR")
  | Undefined =>
      category <> "" ->
      get_category now category
      = respond 404
          (ErrorBody ("Unknown category: " ++ category) "CATEGORY_NOT_FOUND")
  end.
Proof.
  unfold get_category.
  destruct (Get UNIT_CATEGORIES category) as [cat| |] eqn:G.
  - unfold Get in G.
    destruct (own_property UNIT_CATEGORIES category) as [cat'|] eqn:O;
      [|destruct (existsb _ _); discriminate].
    rewrite (category_key_nonempty category cat' O).
    rewrite (getUnitsForCategory_own category cat' O).
    eexists. split; reflexivity.
  - rewrite (inherited_nonempty _ _ G).
    unfold getUnitsForCategory. cbn [ToString]. rewrite G. reflexivity.
  - intros Hne. apply String.eqb_neq in Hne. cbn [truthy]. rewrite Hne.
    unfold getUnitsForCategory. cbn [ToString]. rewrite G. reflexivity.
Qed.

(** X8. On a category of the registry,
    [GET /api/v1/categories/:category/units/:unit] answers 200 with the
    registry's record of the unit when the unit is a key of the category,
    and 404 UNIT_NOT_FOUND for every other non-empty string, the property
    names of [Object.prototype] included. *)
Theorem get_unit_responses (category unit : string) (cat : Category.t) :
  own_property UNIT_CATEGORIES category = Some cat ->
  unit <> "" ->
  get_unit now category unit
  = match own_property (Category.units cat) unit with
    | Some u =>
        respond 200
          (UnitBody category (Category.name cat) (Category.icon cat)
             (ListedUnit.make unit (Some u)) now)
    | None =>
        respond 404
          (ErrorBody ("Unit '" ++ unit ++ "' not found in category '"
                        ++ category ++ "'")
             "UNIT_NOT_FOUND")
    end.
Proof.
  intros Hc Hu. unfold get_unit.
  rewrite (category_key_nonempty category cat Hc).
  apply String.eqb_neq in Hu. cbn [truthy negb]. rewrite Hu. cbn [negb].
  rewrite (getUnitsForCategory_own category cat Hc). cbn [bind].
  cbn [CategoryUnits.units CategoryUnits.name CategoryUnits.icon].
  rewrite find_listed.
  destruct (own_property (Category.units cat) unit) as [u|] eqn:E;
    [|reflexivity].
  now rewrite (Get_own _ _ _ E).
Qed.

(** ** Every listed unit converts *)

Lemma convertTemperature_registry (v : float) (f t : string)
  (uf ut : Unit.t) :
  own_property temperature_units f = Some uf ->
  own_property temperature_units t = Some ut ->
  exists r, convertTemperature v f t = Normal r.
Proof.
  intros Hf%own_property_In Ht%own_property_In. cbn in Hf, Ht.
  repeat (destruct Hf as [[= <- <-]|Hf]); try destruct Hf;
    repeat (destruct Ht as [[= <- <-]|Ht]); try destruct Ht;
    eexists; reflexivity.
Qed.

(** On a category of the registry and two of its units, [convert]
    succeeds. *)
Lemma convert_registry_units (c f t : string) (cat : Category.t)
  (uf ut : Unit.t) (v : float) :
  own_property UNIT_CATEGORIES c = Some cat ->
  own_property (Category.units cat) f = Some uf ->
  own_property (Category.units cat) t = Some ut ->
  isNaN v = false ->
  exists r formula,
    convert NumberToString now (JsNumber v) f t c
    = Normal (Success (JsNumber v) r f t c formula now).
Proof.
  intros Hc Hf Ht Hv.
  destruct (getConversionFormula_registry NumberToString c cat v f t Hc)
    as [s Hs].
  assert (R : exists r,
             (if is_string c "temperature"
              then convertTemperature v f t
              else convertWithFactors v f t c) = Normal r).
  { unfold is_string, strict_eq.
    destruct (String.eqb_spec c "temperature") as [->|Hne].
    - injection Hc as <-.
      exact (convertTemperature_registry v f t uf ut Hf Ht).
    - destruct (String.eqb_spec f t) as [->|Hft].
      + rewrite convertWithFactors_same. eauto.
      + rewrite (convertWithFactors_resolved c f t cat uf ut v Hc Hf Ht Hft).
        eauto. }
  destruct R as [r Hr]. exists r, s. unfold convert.
  rewrite Hv, (unit_key_nonempty c f cat uf Hc Hf),
    (unit_key_nonempty c t cat ut Hc Ht), (category_key_nonempty c cat Hc).
  cbn [negb orb ToString].
  rewrite (Get_own _ _ _ Hc). cbn [defined negb].
  rewrite Hr. cbn [bind]. rewrite Hs. reflexivity.
Qed.

(** X9. Any two units that [getUnitsForCategory] lists for a category
    convert into each other: for every finite value, [convert] on their keys
    and that category is a success result. *)
Theorem listed_units_convert (c : StrArg) (data : CategoryUnits.t)
  (u1 u2 : ListedUnit.t) (v : float) :
  getUnitsForCategory c = Normal data ->
  In u1 (CategoryUnits.units data) ->
  In u2 (CategoryUnits.units data) ->
  is_finite v = true ->
  exists r formula,
    convert NumberToString now (JsNumber v) (ListedUnit.key u1)
      (ListedUnit.key u2) c
    = Normal (Success (JsNumber v) r (ListedUnit.key u1) (ListedUnit.key u2)
                c formula now).
Proof.
  intros Hd H1 H2 Hv.
  destruct (getUnitsForCategory_normal c data Hd) as [cat Hc].
  rewrite (getUnitsForCategory_own c cat Hc) in Hd. injection Hd as <-.
  cbn [CategoryUnits.units] in H1, H2.
  apply in_map_iff in H1 as (k1 & <- & K1), H2 as (k2 & <- & K2).
  cbn [ListedUnit.key].
  destruct (own_property_key_In _ _ K1) as [a1 O1],
    (own_property_key_In _ _ K2) as [a2 O2].
  destruct c as [| |c]; try discriminate Hc. cbn [ToString] in Hc.
  exact (convert_registry_units c k1 k2 cat a1 a2 v Hc O1 O2
           (finite_not_nan v Hv)).
Qed.

(** ** The messages of failed lookups *)

(** X10. A non-empty category that is neither in the registry nor a
    property name of [Object.prototype] makes [convert] fail with
    "Unknown category: " followed by the category, whatever the units, equal
    or not. *)
Theorem convert_unknown_category_message (c : string) (f t : StrArg)
  (v : float) :
  Get UNIT_CATEGORIES c = Undefined ->
  c <> "" ->
  truthy f = true -> truthy t = true ->
  is_finite v = true ->
  convert NumberToString now (JsNumber v) f t c
  = Normal (Failure ("Unknown category: " ++ c) (JsNumber v) f t c now).
Proof.
  intros G Hc Hf Ht Hv. unfold convert.
  apply String.eqb_neq in Hc.
  rewrite (finite_not_nan v Hv), Hf, Ht. cbn [truthy negb orb ToString].
  rewrite Hc, G. reflexivity.
Qed.

(** X11. On a category of the registry other than temperature and two
    distinct non-empty units, a from-unit that is no property of the
    category's units makes [convert] fail with
    "Unknown unit '<fromUnit>' in category '<category>'", whether or not the
    to-unit is known; with a known from-unit, an unknown to-unit is the one
    named. *)
Theorem convert_unknown_unit (c f t : string) (cat : Category.t)
  (v : float) :
  own_property UNIT_CATEGORIES c = Some cat ->
  c <> "temperature" ->
  f <> "" -> t <> "" -> f <> t ->
  is_finite v = true ->
  (Get (Category.units cat) f = Undefined ->
   convert NumberToString now (JsNumber v) f t c
   = Normal (Failure ("Unknown unit '" ++ f ++ "' in category '" ++ c ++ "'")
               (JsNumber v) f t c now))
  /\ (defined (Get (Category.units cat) f) = true ->
      Get (Category.units cat) t = Undefined ->
      convert NumberToString now (JsNumber v) f t c
      = Normal (Failure
                  ("Unknown unit '" ++ t ++ "' in category '" ++ c ++ "'")
                  (JsNumber v) f t c now)).
Proof.
  intros Hc Htemp Hf Ht Hne Hv.
  apply String.eqb_neq in Htemp, Hf, Ht, Hne.
  assert (E : convert NumberToString now (JsNumber v) f t c
              = try_catch
                  (let* result := convertWithFactors v f t c in
                   let* formula :=
                     getConversionFormula NumberToString v f t c in
                   Normal (Success (JsNumber v) result f t c formula now))
                  (fun error =>
                     Normal (Failure (message error) (JsNumber v) f t c
                               now))).
  { assert (Tf : truthy f = true) by (cbn; now rewrite Hf).
    assert (Tt : truthy t = true) by (cbn; now rewrite Ht).
    unfold convert. rewrite (finite_not_nan v Hv), Tf, Tt.
    rewrite (category_key_nonempty c cat Hc). cbn [negb orb ToString].
    rewrite (Get_own _ _ _ Hc). cbn [defined negb].
    unfold is_string, strict_eq. rewrite Htemp. reflexivity. }
  rewrite E. unfold convertWithFactors. cbn [strict_eq ToString].
  rewrite Hne, (Get_own _ _ _ Hc). cbn [defined negb field bind index].
  split.
  - intros ->. reflexivity.
  - intros D ->. rewrite D. reflexivity.
Qed.

(** X12. On the temperature category and two distinct non-empty units, a
    from-unit other than the four temperature keys makes [convert] fail with
    "Unknown temperature unit: <fromUnit>"; with a known from-unit, an
    unknown to-unit is the one named. The registry is not consulted: a
    property name of [Object.prototype] is unknown here. *)
Theorem convert_unknown_temperature_unit (f t : string) (v : float) :
  f <> "" -> t <> "" -> f <> t ->
  is_finite v = true ->
  ((forall u, f <> key u) ->
   convert NumberToString now (JsNumber v) f t "temperature"
   = Normal (Failure ("Unknown temperature unit: " ++ f) (JsNumber v) f t
               "temperature" now))
  /\ ((exists u, f = key u) ->
      (forall u, t <> key u) ->
      convert NumberToString now (JsNumber v) f t "temperature"
      = Normal (Failure ("Unknown temperature unit: " ++ t) (JsNumber v) f t
                  "temperature" now)).
Proof.
  intros Hf Ht Hne Hv.
  apply String.eqb_neq in Hf, Ht, Hne.
  assert (E : convert NumberToString now (JsNumber v) f t "temperature"
              = try_catch
                  (let* result := convertTemperature v f t in
                   let* formula :=
                     getConversionFormula NumberToString v f t "temperature"
                   in
                   Normal (Success (JsNumber v) result f t "temperature"
                             formula now))
                  (fun error =>
                     Normal (Failure (message error) (JsNumber v) f t
                               "temperature" now))).
  { unfold convert. rewrite (finite_not_nan v Hv).
    cbn [truthy negb orb ToString]. rewrite Hf, Ht. reflexivity. }
  rewrite E. unfold convertTemperature, is_string. cbn [strict_eq].
  rewrite Hne.
  assert (U : forall s : string,
             (forall u, s <> key u) ->
             (s =? "celsius")%string = false
             /\ (s =? "fahrenheit")%string = false
             /\ (s =? "kelvin")%string = false
             /\ (s =? "rankine")%string = false).
  { intros s H. repeat split; apply String.eqb_neq.
    - exact (H celsius).
    - exact (H fahrenheit).
    - exact (H kelvin).
    - exact (H rankine). }
  split.
  - intros H. destruct (U f H) as (-> & -> & -> & ->). reflexivity.
  - intros [u ->] H. destruct (U t H) as (-> & -> & -> & ->).
    destruct u; reflexivity.
Qed.

(** ** Units found on [Object.prototype] *)

Lemma mul_nan_r (x : float) : x * nan = nan.
Proof.
  apply Prim2SF_inj. rewrite mul_spec.
  destruct (Prim2SF x) as [| | |s m e]; reflexivity.
Qed.

Lemma mul_nan_l (x : float) : nan * x = nan.
Proof. apply Prim2SF_inj. rewrite mul_spec. reflexivity. Qed.

Lemma div_nan_r (x : float) : x / nan = nan.
Proof.
  apply Prim2SF_inj. rewrite div_spec.
  destruct (Prim2SF x) as [| | |s m e]; reflexivity.
Qed.

Lemma div_nan_l (x : float) : nan / x = nan.
Proof. apply Prim2SF_inj. rewrite div_spec. reflexivity. Qed.

(** A name that resolves in the units of a category is not empty. *)
Lemma defined_unit_nonempty (c k : string) (cat : Category.t) :
  own_property UNIT_CATEGORIES c = Some cat ->
  defined (Get (Category.units cat) k) = true ->
  truthy k = true.
Proof.
  intros Hc D. destruct k; [|reflexivity]. unfold Get in D.
  destruct (own_property (Category.units cat) "") eqn:O; [|discriminate D].
  exact (unit_key_nonempty c "" cat _ Hc O).
Qed.

(** X13. On a category of the registry other than temperature, a unit name
    that is a property name of [Object.prototype] (such as "constructor")
    passes for a unit: with two distinct names that both resolve, one of
    them inherited, [convert] returns a success result whose convertedValue
    is NaN. *)
Theorem convert_inherited_unit_nan (c f t : string) (cat : Category.t)
  (v : float) :
  own_property UNIT_CATEGORIES c = Some cat ->
  c <> "temperature" ->
  f <> t ->
  Get (Category.units cat) f = Inherited
  \/ Get (Category.units cat) t = Inherited ->
  defined (Get (Category.units cat) f) = true ->
  defined (Get (Category.units cat) t) = true ->
  is_finite v = true ->
  exists formula,
    convert NumberToString now (JsNumber v) f t c
    = Normal (Success (JsNumber v) nan f t c formula now).
Proof.
  intros Hc Htemp Hne Hin Df Dt Hv.
  destruct (getConversionFormula_registry NumberToString c cat v f t Hc)
    as [s Hs].
  exists s.
  pose proof (defined_unit_nonempty c f cat Hc Df) as Tf.
  pose proof (defined_unit_nonempty c t cat Hc Dt) as Tt.
  apply String.eqb_neq in Htemp, Hne.
  unfold convert. rewrite (finite_not_nan v Hv), Tf, Tt.
  rewrite (category_key_nonempty c cat Hc). cbn [negb orb ToString].
  rewrite (Get_own _ _ _ Hc). cbn [defined negb].
  unfold is_string, strict_eq. rewrite Htemp.
  unfold convertWithFactors. cbn [strict_eq ToString].
  rewrite Hne, (Get_own _ _ _ Hc). cbn [defined negb field bind index].
  rewrite Df, Dt. cbn [negb].
  destruct Hin as [G|G]; rewrite G in *.
  - destruct (Get (Category.units cat) t) as [ut| |]; try discriminate Dt;
      cbn [field bind ToNumber]; rewrite mul_nan_r, div_nan_l;
      cbn [bind]; rewrite Hs; reflexivity.
  - destruct (Get (Category.units cat) f) as [uf| |]; try discriminate Df;
      cbn [field bind ToNumber]; rewrite div_nan_r;
      cbn [bind]; rewrite Hs; reflexivity.
Qed.

(** ** The entries of a batch *)


(** ** The client's check of a value *)

(** X15. A value that [CONFIG.validateValue] accepts is the parsed number,
    is finite (neither NaN nor an infinity) and is not outside
    [MIN_VALUE], [MAX_VALUE]. *)
Theorem validateValue_accepts_finite (value : JsValue) (x : float) :
  validateValue NumberToString parseFloat value = Valid x ->
  x = parseFloat value
  /\ is_finite x = true
  /\ (x <? MIN_VALUE) = false
  /\ (MAX_VALUE <? x) = false.
Proof.
  unfold validateValue. generalize (parseFloat value) as y. intros y.
  destruct (isNaN y) eqn:N; [discriminate|].
  destruct ((y <? MIN_VALUE) || (MAX_VALUE <? y)) eqn:R; [discriminate|].
  intros [= <-]. apply orb_false_elim in R as [R1 R2].
  repeat split; try assumption.
  unfold is_finite. unfold isNaN in N. rewrite N. cbn [orb negb].
  unfold is_infinity. rewrite eqb_spec, abs_spec.
  rewrite ltb_spec in R1, R2.
  destruct (Prim2SF y) as [s|[|]| |s m e]; try reflexivity.
  - vm_compute in R1. discriminate R1.
  - vm_compute in R2. discriminate R2.
Qed.


End RouteProperties.

(** ** The dependency-free server *)

(** X16. The second [convert] compares the units before anything else and
    rounds what it returns: with equal units (any string, or none) and any
    category, in its table or not, a number that is not NaN gives a success
    result whose convertedValue is [Math.round(value * 1e10) / 1e10]. *)
Theorem simple_convert_same_unit (now : string) (x : float) (u c : StrArg) :
  isNaN x = false ->
  Simple.convert now (JsNumber x) u u c
  = Normal (Simple.Success (JsNumber x) (Math_round (x * 1e10) / 1e10)
              u u c now).
Proof.
  intros Hx. unfold Simple.convert. rewrite Hx.
  unfold Simple.convertTemperature, Simple.convertWithFactors.
  rewrite strict_eq_refl. destruct (is_string c "temperature"); reflexivity.
Qed.

(** The factor of a unit of the second server's table is the registry's. *)
Lemma simple_factor_in_registry (c u : string) (scat : Simple.SimpleCategory)
  (su : Simple.SimpleUnit) :
  own_property Simple.UNIT_CATEGORIES c = Some scat ->
  own_property (Simple.units scat) u = Some su ->
  exists cat eu,
    own_property UNIT_CATEGORIES c = Some cat
    /\ own_property (Category.units cat) u = Some eu
    /\ Unit.factor eu = Simple.factor su.
Proof.
  intros Hc%own_property_In Hu%own_property_In.
  assert (K : forallb
                (fun '(c, scat) =>
                   forallb
                     (fun '(u, su) =>
                        match own_property UNIT_CATEGORIES c with
                        | Some cat =>
                            match own_property (Category.units cat) u with
                            | Some eu =>
                                Leibniz.eqb (Unit.factor eu)
                                  (Simple.factor su)
                            | None => false
                            end
                        | None => false
                        end)
                     (Simple.units scat))
                Simple.UNIT_CATEGORIES = true)
    by (vm_compute; reflexivity).
  rewrite forallb_forall in K. apply K in Hc.
  rewrite forallb_forall in Hc. apply Hc in Hu.
  destruct (own_property UNIT_CATEGORIES c) as [cat|]; [|discriminate].
  destruct (own_property (Category.units cat) u) as [eu|] eqn:Ou;
    [|discriminate].
  apply Leibniz.eqb_spec in Hu. exists cat, eu. repeat split; assumption.
Qed.

(** X17. The table of the second server is part of the registry: each of
    its categories and units is in the registry under the same key, with the
    same name, symbol and factor, and the same base unit. *)
Theorem simple_table_in_registry (c u : string) (scat : Simple.SimpleCategory)
  (su : Simple.SimpleUnit) :
  own_property Simple.UNIT_CATEGORIES c = Some scat ->
  own_property (Simple.units scat) u = Some su ->
  exists cat eu,
    own_property UNIT_CATEGORIES c = Some cat
    /\ own_property (Category.units cat) u = Some eu
    /\ Category.name cat = Simple.category_name scat
    /\ Category.icon cat = Simple.icon scat
    /\ Category.baseUnit cat = Simple.baseUnit scat
    /\ Unit.name eu = Simple.name su
    /\ Unit.symbol eu = Simple.symbol su
    /\ Unit.factor eu = Simple.factor su.
Proof.
  intros Hc%own_property_In Hu. cbn in Hc.
  repeat (destruct Hc as [[= <- <-]|Hc]); try destruct Hc;
    apply own_property_In in Hu; cbn in Hu;
    repeat (destruct Hu as [[= <- <-]|Hu]); try destruct Hu;
    do 2 eexists; repeat split; reflexivity.
Qed.

Lemma simple_convertWithFactors_resolved (c f t : string)
  (scat : Simple.SimpleCategory) (sf st : Simple.SimpleUnit) (v : float) :
  own_property Simple.UNIT_CATEGORIES c = Some scat ->
  own_property (Simple.units scat) f = Some sf ->
  own_property (Simple.units scat) t = Some st ->
  f <> t ->
  Simple.convertWithFactors v f t c
  = Normal (v * Simple.factor sf / Simple.factor st).
Proof.
  intros Hc Hf Ht Hne. unfold Simple.convertWithFactors. simpl.
  apply String.eqb_neq in Hne. rewrite Hne.
  rewrite (Get_own _ _ _ Hc). simpl.
  rewrite (Get_own _ _ _ Hf), (Get_own _ _ _ Ht). reflexivity.
Qed.

(** X18. On a category of the second server's table other than temperature
    and two distinct units of it, the two servers round the same quotient
    [q = value * factor(from) / factor(to)]: the engine returns
    [round((q + eps) * 10^10) / 10^10] and the second server
    [round(q * 10^10) / 10^10]. *)
Theorem simple_convert_same_quotient (now : string) (c f t : string)
  (scat : Simple.SimpleCategory) (sf st : Simple.SimpleUnit) (v : float) :
  own_property Simple.UNIT_CATEGORIES c = Some scat ->
  c <> "temperature" ->
  own_property (Simple.units scat) f = Some sf ->
  own_property (Simple.units scat) t = Some st ->
  f <> t ->
  is_finite v = true ->
  let q := v * Simple.factor sf / Simple.factor st in
  convertWithFactors v f t c
  = Normal (Math_round ((q + Number_EPSILON) * 1e10) / 1e10)
  /\ Simple.convert now (JsNumber v) f t c
     = Normal (Simple.Success (JsNumber v) (Math_round (q * 1e10) / 1e10)
                 f t c now).
Proof.
  intros Hc Htemp Hf Ht Hne Hv q.
  destruct (simple_factor_in_registry c f scat sf Hc Hf)
    as (cat & ef & Oc & Of & Ff).
  destruct (simple_factor_in_registry c t scat st Hc Ht)
    as (cat' & et & Oc' & Ot & Ft).
  rewrite Oc in Oc'. injection Oc' as <-.
  split.
  - rewrite (convertWithFactors_resolved c f t cat ef et v Oc Of Ot Hne).
    rewrite Ff, Ft. reflexivity.
  - unfold Simple.convert. rewrite (finite_not_nan v Hv).
    apply String.eqb_neq in Htemp. unfold is_string, strict_eq.
    rewrite Htemp.
    rewrite (simple_convertWithFactors_resolved c f t scat sf st v Hc Hf Ht
               Hne).
    reflexivity.
Qed.

(** ** [getTemperatureFormula] *)

Lemma dash_split (a b F T : string) :
  has_dash a = false -> has_dash b = false ->
  (a ++ String "-" b)%string = (F ++ String "-" T)%string ->
  F = a /\ T = b.
Proof.
  revert F. induction a as [|x a IH]; intros F Ha Hb E.
  - destruct F as [|y F]; cbn in E.
    + injection E as <-. now split.
    + injection E as <- ->. now rewrite has_dash_app in Hb.
  - cbn in Ha. apply orb_false_elim in Ha as [Hx Ha].
    destruct F as [|y F]; cbn in E.
    + injection E as -> _. discriminate Hx.
    + injection E as <- E. destruct (IH F Ha Hb E) as [-> ->]. now split.
Qed.

Lemma temperature_of_key (s : string) (u : TemperatureUnit) :
  temperature_of s = Some u -> s = key u.
Proof.
  unfold temperature_of.
  destruct (String.eqb_spec s "celsius");
    [intros [= <-]; assumption|].
  destruct (String.eqb_spec s "fahrenheit");
    [intros [= <-]; assumption|].
  destruct (String.eqb_spec s "kelvin");
    [intros [= <-]; assumption|].
  destruct (String.eqb_spec s "rankine");
    [intros [= <-]; assumption|discriminate].
Qed.

(** A key of the table splits at its dash in one way. *)
Lemma formulas_key_split (F T s : string) :
  In ((F ++ "-" ++ T)%string, s) formulas ->
  exists u1 u2, F = key u1 /\ T = key u2.
Proof.
  intros O. cbn in O.
  assert (S : forall a b,
             has_dash a = false -> has_dash b = false ->
             (a ++ String "-" b)%string = (F ++ String "-" T)%string ->
             (exists u1, a = key u1) -> (exists u2, b = key u2) ->
             exists u1 u2, F = key u1 /\ T = key u2).
  { intros a b Ha Hb E [u1 ->] [u2 ->].
    destruct (dash_split _ _ _ _ Ha Hb E) as [-> ->]. eauto. }
  repeat (destruct O as [[= O _]|O];
          [first
             [ apply (S "celsius" "fahrenheit" eq_refl eq_refl O)
             | apply (S "fahrenheit" "celsius" eq_refl eq_refl O)
             | apply (S "celsius" "kelvin" eq_refl eq_refl O)
             | apply (S "kelvin" "celsius" eq_refl eq_refl O)
             | apply (S "fahrenheit" "kelvin" eq_refl eq_refl O)
             | apply (S "kelvin" "fahrenheit" eq_refl eq_refl O)
             | apply (S "celsius" "rankine" eq_refl eq_refl O)
             | apply (S "rankine" "celsius" eq_refl eq_refl O)
             | apply (S "fahrenheit" "rankine" eq_refl eq_refl O)
             | apply (S "rankine" "fahrenheit" eq_refl eq_refl O)
             | apply (S "kelvin" "rankine" eq_refl eq_refl O)
             | apply (S "rankine" "kelvin" eq_refl eq_refl O) ];
           [ (exists celsius + exists fahrenheit + exists kelvin
              + exists rankine); reflexivity
           | (exists celsius + exists fahrenheit + exists kelvin
              + exists rankine); reflexivity ]
          |]).
  destruct O.
Qed.

Lemma temperature_of_key_refl (u : TemperatureUnit) :
  temperature_of (key u) = Some u.
Proof. destruct u; reflexivity. Qed.

(** X19. [getTemperatureFormula] never fails, on strings or absent
    arguments: it returns the table's string when the two arguments are two
    distinct keys among celsius, fahrenheit, kelvin and rankine, and the
    empty string in every other case. *)
Theorem getTemperatureFormula_total (f t : StrArg) :
  getTemperatureFormula f t
  = match temperature_of (ToString f), temperature_of (ToString t) with
    | Some u1, Some u2 => temperature_table u1 u2
    | _, _ => ""
    end.
Proof.
  unfold getTemperatureFormula, Get.
  rewrite temperature_key_not_inherited.
  destruct (own_property formulas _) as [s|] eqn:O.
  - pose proof (own_property_In _ _ _ O) as I.
    apply formulas_key_split in I as (u1 & u2 & E1 & E2).
    rewrite E1, E2 in O |- *. rewrite !temperature_of_key_refl.
    destruct u1, u2; cbn in O; try discriminate O;
      injection O as <-; reflexivity.
  - destruct (temperature_of (ToString f)) as [u1|] eqn:E1; [|reflexivity].
    destruct (temperature_of (ToString t)) as [u2|] eqn:E2; [|reflexivity].
    rewrite (temperature_of_key _ _ E1), (temperature_of_key _ _ E2) in O.
    destruct u1, u2; cbn in O; try discriminate O; reflexivity.
Qed.

(** * Closed instances of the properties of the listings and the routes *)

(** X2 at the length category: "meter" is found with its record,
    "constructor" is not. *)
Lemma getUnitsForCategory_find_witness :
  exists data,
    getUnitsForCategory "length" = Normal data
    /\ find_unit (CategoryUnits.units data) "meter"
       = Some (ListedUnit.make "meter"
                 (Some (Unit.make "Meter" "m" 1 "metric")))
    /\ find_unit (CategoryUnits.units data) "constructor" = None.
Proof.
  eexists. split; [reflexivity|]. split.
  - apply (getUnitsForCategory_find "length"
             (Category.make "Length" "📏" "meter" length_units) _ "meter");
      reflexivity.
  - apply (getUnitsForCategory_find "length"
             (Category.make "Length" "📏" "meter" length_units) _
             "constructor");
      reflexivity.
Defined.

(** X5 at a batch of a conversion and a [null]. *)
Lemma post_batch_preserves_order_witness :
  exists succeeded failed results,
    post_batch example_NumberToString example_now example_parseFloat_digits
      example_describe
      (Some (JArray
               [ JObject [ ("value", JString "1");
                           ("fromUnit", JString "meter");
                           ("toUnit", JString "centimeter");
                           ("category", JString "length") ];
                 JNull ]))
    = respond 200 (BatchBody 2 succeeded failed results example_now)
    /\ List.length results = 2%nat
    /\ (succeeded + failed = 2)%nat.
Proof.
  destruct (post_batch_preserves_order example_NumberToString example_now
              example_parseFloat_digits example_describe
              [ JObject [ ("value", JString "1");
                          ("fromUnit", JString "meter");
                          ("toUnit", JString "centimeter");
                          ("category", JString "length") ];
                JNull ])
    as (s & f & r & H & L & C & _).
  - cbn. lia.
  - exists s, f, r. repeat split; assumption.
Defined.

(** A body that holds the object [{"toString": null}], which has no
    string. As the value, [parseFloat] throws on it: the two routes answer
    500, and the batch rejects the entry with the TypeError's message. As a
    unit, it passes the required-field check and fails in the engine. *)
Example post_convert_value_without_string :
  post_convert example_NumberToString example_now example_parseFloat_digits
    example_describe
    (Some (JObject [("toString", JNull)])) (Some (JString "meter"))
    (Some (JString "centimeter")) (Some (JString "length"))
  = respond 500
      (ErrorBody "Internal server error during conversion" "INTERNAL_ERROR").
Proof. reflexivity. Qed.

Example post_validate_value_without_string :
  post_validate example_NumberToString example_now example_parseFloat_digits
    example_describe
    (Some (JObject [("toString", JNull)])) (Some (JString "meter"))
    (Some (JString "centimeter")) (Some (JString "length"))
  = respond 500
      (ErrorBody "Internal server error during validation" "INTERNAL_ERROR").
Proof. reflexivity. Qed.

Example batch_entry_value_without_string :
  batch_entry example_NumberToString example_now example_parseFloat_digits
    example_describe 0
    (JObject [ ("value", JObject [("toString", JNull)]);
               ("fromUnit", JString "meter");
               ("toUnit", JString "centimeter");
               ("category", JString "length") ])
  = BatchRejected 0 "Cannot convert object to primitive value"
      (JObject [ ("value", JObject [("toString", JNull)]);
                 ("fromUnit", JString "meter");
                 ("toUnit", JString "centimeter");
                 ("category", JString "length") ]).
Proof. reflexivity. Qed.

Example post_convert_unit_without_string :
  post_convert example_NumberToString example_now example_parseFloat_digits
    example_describe
    (Some (JString "1")) (Some (JObject [("toString", JNull)]))
    (Some (JString "centimeter")) (Some (JString "length"))
  = respond 400
      (ConversionErrorBody "Cannot convert object to primitive value"
         (OnJson.Failure "Cannot convert object to primitive value" 1
            (Some (JObject [("toString", JNull)]))
            (Some (JString "centimeter")) (Some (JString "length"))
            example_now)).
Proof. vm_compute. reflexivity. Qed.

(** Strings, and an array that is converted to the key of a category. *)
Example post_convert_meter_centimeter :
  exists formula,
    post_convert example_NumberToString example_now example_parseFloat_digits
      example_describe
      (Some (JString "1")) (Some (JString "meter"))
      (Some (JString "centimeter")) (Some (JString "length"))
    = respond 200
        (ConversionBody
           (OnJson.Success 1 100 (Some (JString "meter"))
              (Some (JString "centimeter")) (Some (JString "length"))
              formula example_now))
    /\ post_convert example_NumberToString example_now
         example_parseFloat_digits example_describe
         (Some (JString "1")) (Some (JString "meter"))
         (Some (JString "centimeter")) (Some (JArray [JString "length"]))
       = respond 200
           (ConversionBody
              (OnJson.Success 1 100 (Some (JString "meter"))
                 (Some (JString "centimeter"))
                 (Some (JArray [JString "length"])) formula example_now)).
Proof. eexists. split; vm_compute; reflexivity. Qed.

(** X7 at [GET /api/v1/categories/invalid]. *)
Lemma get_category_responses_witness :
  get_category example_now "invalid"
  = respond 404
      (ErrorBody "Unknown category: invalid" "CATEGORY_NOT_FOUND").
Proof.
  apply (get_category_responses example_now "invalid"). discriminate.
Defined.

(** X8 at [GET /api/v1/categories/length/units/meter]. *)
Lemma get_unit_responses_witness :
  get_unit example_now "length" "meter"
  = respond 200
      (UnitBody "length" "Length" "📏"
         (ListedUnit.make "meter" (Some (Unit.make "Meter" "m" 1 "metric")))
         example_now).
Proof.
  apply (get_unit_responses example_now "length" "meter"
           (Category.make "Length" "📏" "meter" length_units)).
  - reflexivity.
  - discriminate.
Defined.

(** X9 at the speed category, from knot to mach. *)
Lemma listed_units_convert_witness :
  exists r formula,
    convert example_NumberToString example_now (JsNumber 10) "knot" "mach"
      "speed"
    = Normal (Success (JsNumber 10) r "knot" "mach" "speed" formula
                example_now).
Proof.
  eapply (listed_units_convert example_NumberToString example_now "speed" _
            (ListedUnit.make "knot" _) (ListedUnit.make "mach" _) 10).
  - reflexivity.
  - cbn. do 4 right. left. reflexivity.
  - cbn. do 5 right. left. reflexivity.
  - reflexivity.
Defined.

(** X10 at [convert(1, 'meter', 'centimeter', 'unknown')]. *)
Lemma convert_unknown_category_message_witness :
  convert example_NumberToString example_now (JsNumber 1) "meter"
    "centimeter" "unknown"
  = Normal (Failure "Unknown category: unknown" (JsNumber 1) "meter"
              "centimeter" "unknown" example_now).
Proof.
  apply (convert_unknown_category_message example_NumberToString example_now
           "unknown" "meter" "centimeter" 1).
  - reflexivity.
  - discriminate.
  - reflexivity.
  - reflexivity.
  - reflexivity.
Defined.

(** X11 at [convert(1, 'bogus', 'meter', 'length')]. *)
Lemma convert_unknown_unit_witness :
  convert example_NumberToString example_now (JsNumber 1) "bogus" "meter"
    "length"
  = Normal (Failure "Unknown unit 'bogus' in category 'length'" (JsNumber 1)
              "bogus" "meter" "length" example_now).
Proof.
  apply (proj1 (convert_unknown_unit example_NumberToString example_now
                  "length" "bogus" "meter"
                  (Category.make "Length" "📏" "meter" length_units) 1
                  eq_refl ltac:(discriminate) ltac:(discriminate)
                  ltac:(discriminate) ltac:(discriminate) eq_refl)).
  reflexivity.
Defined.

(** X12 at [convert(1, 'bogus', 'celsius', 'temperature')]. *)
Lemma convert_unknown_temperature_unit_witness :
  convert example_NumberToString example_now (JsNumber 1) "bogus" "celsius"
    "temperature"
  = Normal (Failure "Unknown temperature unit: bogus" (JsNumber 1) "bogus"
              "celsius" "temperature" example_now).
Proof.
  apply (proj1 (convert_unknown_temperature_unit example_NumberToString
                  example_now "bogus" "celsius" 1
                  ltac:(discriminate) ltac:(discriminate)
                  ltac:(discriminate) eq_refl)).
  intros u. destruct u; discriminate.
Defined.

(** X13 at [convert(1, 'constructor', 'meter', 'length')]. *)
Lemma convert_inherited_unit_nan_witness :
  exists formula,
    convert example_NumberToString example_now (JsNumber 1) "constructor"
      "meter" "length"
    = Normal (Success (JsNumber 1) nan "constructor" "meter" "length"
                formula example_now).
Proof.
  apply (convert_inherited_unit_nan example_NumberToString example_now
           "length" "constructor" "meter"
           (Category.make "Length" "📏" "meter" length_units) 1).
  - reflexivity.
  - discriminate.
  - discriminate.
  - left. reflexivity.
  - reflexivity.
  - reflexivity.
  - reflexivity.
Defined.

(** X15 at the value 5. *)
Lemma validateValue_accepts_finite_witness :
  5 = example_parseFloat (JsNumber 5)
  /\ is_finite 5 = true
  /\ (5 <? MIN_VALUE) = false
  /\ (MAX_VALUE <? 5) = false.
Proof.
  apply (validateValue_accepts_finite example_NumberToString
           example_parseFloat (JsNumber 5) 5).
  reflexivity.
Defined.

(** X16 at equal units that are no units, on a category that is none:
    1.00000000005 comes back as 1.0000000001. *)
Lemma simple_convert_same_unit_witness :
  Simple.convert example_now (JsNumber 1.00000000005) "x" "x" "nope"
  = Normal (Simple.Success (JsNumber 1.00000000005) 1.0000000001 "x" "x"
              "nope" example_now).
Proof.
  apply (simple_convert_same_unit example_now 1.00000000005 "x" "nope").
  reflexivity.
Defined.

(** X17 at the inch. *)
Lemma simple_table_in_registry_witness :
  exists cat eu,
    own_property UNIT_CATEGORIES "length" = Some cat
    /\ own_property (Category.units cat) "inch" = Some eu
    /\ Category.name cat = "Length"
    /\ Category.icon cat = "📏"
    /\ Category.baseUnit cat = "meter"
    /\ Unit.name eu = "Inch"
    /\ Unit.symbol eu = "in"
    /\ Unit.factor eu = 0.0254.
Proof.
  apply (simple_table_in_registry "length" "inch"
           (Simple.make_category "Length" "📏" "meter" Simple.length_units)
           (Simple.make_unit "Inch" "in" 0.0254)).
  - reflexivity.
  - reflexivity.
Defined.

(** X18 at one inch in feet. *)
Lemma simple_convert_same_quotient_witness :
  convertWithFactors 1 "inch" "foot" "length"
  = Normal
      (Math_round ((1 * 0.0254 / 0.3048 + Number_EPSILON) * 1e10) / 1e10)
  /\ Simple.convert example_now (JsNumber 1) "inch" "foot" "length"
     = Normal (Simple.Success (JsNumber 1)
                 (Math_round (1 * 0.0254 / 0.3048 * 1e10) / 1e10)
                 "inch" "foot" "length" example_now).
Proof.
  apply (simple_convert_same_quotient example_now "length" "inch" "foot"
            (Simple.make_category "Length" "📏" "meter" Simple.length_units)
            (Simple.make_unit "Inch" "in" 0.0254)
            (Simple.make_unit "Foot" "ft" 0.3048) 1).
  - reflexivity.
  - discriminate.
  - reflexivity.
  - reflexivity.
  - discriminate.
  - reflexivity.
Defined.
